(** * Appeal routing: the classification engine of [task2/models.py]

    A shallow embedding of the four classifier backends and of the factory
    [get_model], of the service of [task03/main.py] that calls the
    classifier, and of the console and Streamlit clients of the service,
    followed by the properties of the routing contract and of that code.

    Conventions.
    - Python [str] values are byte strings ([string]), UTF-8 encoded.
    - A Python call that may raise is a computation in the monad [M]:
      it threads a state and ends in [Return v] or [Raise e].
    - A Python [dict] is an association list in insertion order.
    - The pretrained encoder (tokenizer, model and mean pooling), sklearn's
      [cosine_similarity] and the network behind [requests.post] are the
      parts of the environment; they are variables of the sections below.
    - Logging is not modelled: no [logger] call can raise or change a
      result. *)

From Stdlib Require Import String Ascii List ZArith QArith Bool Lia.
From Stdlib Require Import DecimalString.
Import ListNotations.

Open Scope string_scope.
Open Scope list_scope.

(** ** Exceptions *)

(** The exception classes that occur in the module.  All of them derive
    from [Exception]; [HTTPError], [ConnectionError], [ConnectTimeout] and
    [JSONDecodeError] are the subclasses of
    [requests.exceptions.RequestException] used here. *)
Inductive exn_class : Type :=
| RequestException
| HTTPError
| ConnectionError
| ConnectTimeout
| JSONDecodeError
| KeyError
| IndexError
| TypeError
| AttributeError
| ValueError
| RuntimeError.

(** An exception: an instance of a class with its message, or FastAPI's
    [HTTPException(status_code, detail)]. *)
Inductive exn : Type :=
| Exn (cls : exn_class) (msg : string)
| HTTPException (status_code : Z) (detail : string).

(** [isinstance(e, requests.exceptions.RequestException)]. *)
Definition is_RequestException (e : exn) : bool :=
  match e with
  | Exn (RequestException | HTTPError | ConnectionError | ConnectTimeout
        | JSONDecodeError) _ => true
  | _ => false
  end.

(** [isinstance(e, (KeyError, IndexError))]. *)
Definition is_KeyError_or_IndexError (e : exn) : bool :=
  match e with
  | Exn (KeyError | IndexError) _ => true
  | _ => false
  end.

(** [str(n)] for an integer. *)
Definition str_of_Z (n : Z) : string := NilZero.string_of_int (Z.to_int n).

(** [str(e)]; for an [HTTPException], status and detail. *)
Definition str (e : exn) : string :=
  match e with
  | Exn _ msg => msg
  | HTTPException code detail => str_of_Z code ++ ": " ++ detail
  end.

(** ** Results and the state-and-exception monad *)

Inductive result (A : Type) : Type :=
| Return (a : A)
| Raise (e : exn).

Arguments Return {A} a.
Arguments Raise {A} e.

Definition M (S A : Type) : Type := S -> result A * S.

Definition ret {S A : Type} (a : A) : M S A := fun s => (Return a, s).

Definition raise {S A : Type} (e : exn) : M S A := fun s => (Raise e, s).

Definition bind {S A B : Type} (m : M S A) (k : A -> M S B) : M S B :=
  fun s =>
    match m s with
    | (Return a, s') => k a s'
    | (Raise e, s') => (Raise e, s')
    end.

(** A pure, fallible step inside a stateful computation. *)
Definition lift {S A : Type} (r : result A) : M S A := fun s => (r, s).

(** An [except] clause: the test of the exception's class, and the body. *)
Definition clause (S A : Type) : Type := (exn -> bool) * (exn -> M S A).

(** [try: m  except C1 as e: h1 e  except C2 as e: h2 e ...].  The first
    clause that accepts the exception handles it; an exception no clause
    accepts, and one raised by a handler, propagates. *)
Definition try_except {S A : Type} (m : M S A) (clauses : list (clause S A))
  : M S A :=
  fun s =>
    match m s with
    | (Return a, s') => (Return a, s')
    | (Raise e, s') =>
        match find (fun c => fst c e) clauses with
        | Some c => snd c e s'
        | None => (Raise e, s')
        end
    end.

(** [except Exception]: every modelled exception is accepted. *)
Definition Exception (e : exn) : bool := true.

Declare Scope monad_scope.
Delimit Scope monad_scope with monad.
Notation "x <- m ;; k" := (bind m (fun x => k))
  (at level 61, m at next level, right associativity) : monad_scope.

(** ** Python dictionaries and [max] *)

Definition dict (V : Type) : Type := list (string * V).

(** [d[k] = v]: an existing key keeps its position, a new key goes last. *)
Fixpoint dict_set {V : Type} (k : string) (v : V) (d : dict V) : dict V :=
  match d with
  | [] => [(k, v)]
  | (k', v') :: d' =>
      if String.eqb k k' then (k, v) :: d' else (k', v') :: dict_set k v d'
  end.

Definition keys {V : Type} (d : dict V) : list string := map fst d.
Definition values {V : Type} (d : dict V) : list V := map snd d.

(** [{k: f(k, a) for k, a in items}], filling [acc] from left to right. *)
Fixpoint dict_comprehension {S A B : Type} (f : string -> A -> M S B)
    (items : dict A) (acc : dict B) : M S (dict B) :=
  match items with
  | [] => ret acc
  | (k, a) :: rest =>
      bind (f k a) (fun b => dict_comprehension f rest (dict_set k b acc))
  end.

(** [x < y] on scores. *)
Definition Qlt_bool (x y : Q) : bool := negb (Qle_bool y x).

(** The loop of the builtin [max]: the running maximum is replaced only by
    an item whose key is strictly greater, so the first maximal item wins. *)
Definition max_loop {A : Type} (key : A -> Q) (cur : A) (l : list A) : A :=
  fold_left (fun m x => if Qlt_bool (key m) (key x) then x else m) l cur.

(** [max(l, key=key)]; [max] of an empty sequence raises [ValueError]. *)
Definition py_max {A : Type} (key : A -> Q) (l : list A) : result A :=
  match l with
  | [] => Raise (Exn ValueError "max() arg is an empty sequence")
  | x :: l' => Return (max_loop key x l')
  end.

(** ** The embedding classifier, [HuggingFaceClassifier] *)

(** The literal of [classify]: department name to description. *)
Definition department_descriptions : dict string :=
  [ ("Департамент транспорта", "
                Отвечает за транспортную инфраструктуру, дороги, общественный транспорт, 
                парковки, светофоры, дорожные знаки, ремонт дорог, транспортные развязки, 
                мосты, туннели, велодорожки, остановки, автобусы, трамваи, метро, такси.
            ");
    ("Департамент культуры", "
                Отвечает за музеи, театры, библиотеки, культурные центры, выставки, 
                концерты, фестивали, парки культуры, художественные студии, творческие 
                кружки, культурные мероприятия, памятники, исторические здания, 
                культурное наследие, искусство, музыку, литературу.
            ");
    ("Департамент здравоохранения", "
                Отвечает за больницы, поликлиники, медицинские центры, аптеки, 
                медицинское обслуживание, здоровье населения, профилактику заболеваний, 
                медицинские услуги, врачей, медсестер, медицинское оборудование, 
                вакцинацию, диспансеризацию.
            ");
    ("Департамент образования", "
                Отвечает за школы, детские сады, университеты, колледжи, образовательные 
                программы, учебные заведения, образование детей и взрослых, курсы, 
                обучение, преподавателей, учебные материалы, образовательные стандарты.
            ");
    ("Департамент экологии", "
                Отвечает за охрану окружающей среды, уборку мусора, озеленение, 
                экологические программы, чистоту города, переработку отходов, 
                экологическое образование, защиту природы, экологические нормы, 
                мониторинг окружающей среды.
            ");
    ("Департамент физической культуры и спорта", "
                Отвечает за спортивные объекты, стадионы, спортивные площадки, 
                бассейны, спортивные секции, физкультуру, спортивные мероприятия, 
                соревнования, тренировки, развитие спорта, спортивные программы.
            ") ].

(** The confidence threshold, the literal [0.3].  Scores are finite
    single-precision values, modelled by the rationals they denote; no
    single-precision value lies between the rational 3/10 and the
    floating-point literal, so comparing with 3/10 decides the same. *)
Definition threshold : Q := 3 # 10.

Module HuggingFaceClassifier.
Section Encoder.

(** The vectors of the encoder. *)
Variable embedding : Type.

(** Tokenizer, model and mean pooling as loaded by [__init__]: the vector
    of a text, or the exception the pipeline raises. *)
Variable encode : string -> result embedding.

(** [cosine_similarity(a, b)[0][0]], or the exception sklearn raises. *)
Variable cosine_similarity : embedding -> embedding -> result Q.

(** The state: the texts handed to the encoder so far, oldest first. *)
Definition calls : Type := list string.

Definition get_embedding (text : string) : M calls embedding :=
  fun log => (encode text, log ++ [text]).

(** [classify(text, departments)]: [Some] department, or [None] when no
    department reaches the threshold. *)
Definition classify (text : string) (departments : list string)
  : M calls (option string) :=
  try_except
    (text_embedding <- get_embedding text ;;
     department_embeddings <-
       dict_comprehension (fun dept desc => get_embedding desc)
         department_descriptions [] ;;
     similarities <-
       dict_comprehension
         (fun dept dept_embedding =>
            lift (cosine_similarity text_embedding dept_embedding))
         department_embeddings [] ;;
     max_similarity <- lift (py_max (fun q => q) (values similarities)) ;;
     if Qlt_bool max_similarity threshold then ret None
     else
       best_department <- lift (py_max snd similarities) ;;
       ret (Some (fst best_department)))%monad
    [ (Exception,
       fun e =>
         raise (HTTPException 500
                  ("Ошибка при классификации обращения: " ++ str e))) ].

End Encoder.
End HuggingFaceClassifier.

(** ** JSON values and the operations applied to a parsed response *)

#[local] Unset Elimination Schemes.
Inductive json : Type :=
| JNull
| JBool (b : bool)
| JInt (n : Z)
| JFloat (q : Q)
| JString (s : string)
| JArray (l : list json)
| JObject (o : dict json).
#[local] Set Elimination Schemes.

(** [k in d] and [d[k]] on a dictionary. *)
Fixpoint dict_contains {V : Type} (k : string) (d : dict V) : bool :=
  match d with
  | [] => false
  | (k', _) :: d' => if String.eqb k k' then true else dict_contains k d'
  end.

(** [repr] of the string keys used below, none of which needs escaping. *)
Definition repr_key (k : string) : string := "'" ++ k ++ "'".

Fixpoint dict_get {V : Type} (k : string) (d : dict V) : result V :=
  match d with
  | [] => Raise (Exn KeyError (repr_key k))
  | (k', v) :: d' => if String.eqb k k' then Return v else dict_get k d'
  end.

(** The characters of a UTF-8 string: a byte [10xxxxxx] continues the
    character before it. *)
Definition is_continuation (c : ascii) : bool :=
  let n := nat_of_ascii c in (128 <=? n)%nat && (n <? 192)%nat.

Fixpoint characters_from (cur : string) (s : string) : list string :=
  match s with
  | EmptyString => [cur]
  | String c s' =>
      if is_continuation c then characters_from (cur ++ String c "") s'
      else cur :: characters_from (String c "") s'
  end.

Definition characters (s : string) : list string :=
  match s with
  | EmptyString => []
  | String c s' => characters_from (String c "") s'
  end.

Definition bytes (l : list nat) : string :=
  fold_right (fun n s => String (ascii_of_nat n) s) "" l.

(** The characters [str.strip()] removes: U+0009..U+000D, U+001C..U+0020,
    U+0085, U+00A0, U+1680, U+2000..U+200A, U+2028, U+2029, U+202F,
    U+205F and U+3000. *)
Definition whitespace : list string :=
  (map (fun n => bytes [n]) [9; 10; 11; 12; 13; 28; 29; 30; 31; 32]
   ++ [bytes [194; 133]; bytes [194; 160]; bytes [225; 154; 128]]
   ++ map (fun n => bytes [226; 128; n]) (seq 128 11)
   ++ [bytes [226; 128; 168]; bytes [226; 128; 169]; bytes [226; 128; 175];
       bytes [226; 129; 159]; bytes [227; 128; 128]])%nat.

Definition isspace (c : string) : bool :=
  existsb (String.eqb c) whitespace.

Fixpoint lstrip (l : list string) : list string :=
  match l with
  | [] => []
  | c :: l' => if isspace c then lstrip l' else l
  end.

(** [s.strip()]. *)
Definition strip (s : string) : string :=
  String.concat "" (rev (lstrip (rev (lstrip (characters s))))).

(** [j[k]] for a string key. *)
Definition getitem (j : json) (k : string) : result json :=
  match j with
  | JObject o => dict_get k o
  | JArray _ =>
      Raise (Exn TypeError "list indices must be integers or slices, not str")
  | JString _ => Raise (Exn TypeError "string indices must be integers")
  | JNull => Raise (Exn TypeError "'NoneType' object is not subscriptable")
  | JBool _ => Raise (Exn TypeError "'bool' object is not subscriptable")
  | JInt _ => Raise (Exn TypeError "'int' object is not subscriptable")
  | JFloat _ => Raise (Exn TypeError "'float' object is not subscriptable")
  end.

(** [j[0]].  The keys of a parsed JSON object are strings, so the integer
    is never among them. *)
Definition getitem0 (j : json) : result json :=
  match j with
  | JArray l =>
      match l with
      | x :: _ => Return x
      | [] => Raise (Exn IndexError "list index out of range")
      end
  | JString s =>
      match characters s with
      | c :: _ => Return (JString c)
      | [] => Raise (Exn IndexError "string index out of range")
      end
  | JObject _ => Raise (Exn KeyError "0")
  | JNull => Raise (Exn TypeError "'NoneType' object is not subscriptable")
  | JBool _ => Raise (Exn TypeError "'bool' object is not subscriptable")
  | JInt _ => Raise (Exn TypeError "'int' object is not subscriptable")
  | JFloat _ => Raise (Exn TypeError "'float' object is not subscriptable")
  end.

(** [j.strip()]: only a string has the method. *)
Definition strip_method (j : json) : result string :=
  match j with
  | JString s => Return (strip s)
  | JNull =>
      Raise (Exn AttributeError "'NoneType' object has no attribute 'strip'")
  | JBool _ =>
      Raise (Exn AttributeError "'bool' object has no attribute 'strip'")
  | JInt _ =>
      Raise (Exn AttributeError "'int' object has no attribute 'strip'")
  | JFloat _ =>
      Raise (Exn AttributeError "'float' object has no attribute 'strip'")
  | JArray _ =>
      Raise (Exn AttributeError "'list' object has no attribute 'strip'")
  | JObject _ =>
      Raise (Exn AttributeError "'dict' object has no attribute 'strip'")
  end.

(** Bind on plain results, for the chains of subscripts. *)
Definition and_then {A B : Type} (r : result A) (k : A -> result B)
  : result B :=
  match r with
  | Return a => k a
  | Raise e => Raise e
  end.

(** ** The [requests] calls *)

Record request : Type := mk_request {
  req_url : string;
  req_headers : dict string;
  req_json : json
}.

(** What [requests.post] returns: status line, final URL, and what
    [response.json()] gives (the parsed body, or the exception raised on a
    body that is not JSON). *)
Record response : Type := mk_response {
  status_code : Z;
  reason : string;
  resp_url : string;
  resp_json : result json
}.

(** The state of the remote backends: the requests posted, oldest first. *)
Definition sent : Type := list request.

(** [response.raise_for_status()]: [HTTPError] on a 4xx or 5xx status,
    nothing otherwise. *)
Definition raise_for_status (r : response) : result unit :=
  if (400 <=? status_code r)%Z && (status_code r <? 500)%Z then
    Raise (Exn HTTPError
             (str_of_Z (status_code r) ++ " Client Error: " ++ reason r
              ++ " for url: " ++ resp_url r))
  else if (500 <=? status_code r)%Z && (status_code r <? 600)%Z then
    Raise (Exn HTTPError
             (str_of_Z (status_code r) ++ " Server Error: " ++ reason r
              ++ " for url: " ++ resp_url r))
  else Return tt.

Section Network.

(** The remote side: its reply to a request, given the requests posted
    before it.  [Raise] is a transport failure. *)
Variable network : sent -> request -> result response.

(** [requests.post(url, headers=headers, json=data)]. *)
Definition requests_post (url : string) (headers : dict string)
    (data : json) : M sent response :=
  fun log =>
    let req := mk_request url headers data in
    (network log req, log ++ [req]).

End Network.

(** The prompt shared by the three remote backends. *)
Definition prompt (text : string) (departments : list string) : string :=
  "
        Проанализируй следующее обращение гражданина и определи, в какой департамент его нужно направить.
        Доступные департаменты: "
  ++ String.concat ", " departments
  ++ "
        
        Обращение: "
  ++ text
  ++ "
        
        Ответь только названием департамента из списка.
        ".

(** ** [DeepSeekClassifier] *)

Module DeepSeekClassifier.

Record t : Type := mk {
  api_key : string;
  url : string;
  headers : dict string
}.

Definition init (api_key : string) : t :=
  {| api_key := api_key;
     url := "https://api.deepseek.com/v1/chat/completions";
     headers := [ ("Content-Type", "application/json");
                  ("Authorization", ("Bearer " ++ api_key)%string) ] |}.

Definition data (text : string) (departments : list string) : json :=
  JObject
    [ ("model", JString "deepseek-chat");
      ("messages",
       JArray
         [ JObject
             [ ("role", JString "system");
               ("content", JString "Ты - помощник по классификации обращений граждан. Твоя задача - определить, в какой департамент нужно направить обращение. Отвечай только названием департамента из предложенного списка.") ];
           JObject
             [ ("role", JString "user");
               ("content", JString (prompt text departments)) ] ]);
      ("temperature", JFloat (1 # 10));
      ("max_tokens", JInt 100) ].

(** [result["choices"][0]["message"]["content"].strip()]. *)
Definition answer (body : json) : result string :=
  and_then (getitem body "choices") (fun choices =>
  and_then (getitem0 choices) (fun choice =>
  and_then (getitem choice "message") (fun message =>
  and_then (getitem message "content") strip_method))).

Section Network.
Variable network : sent -> request -> result response.

Definition classify (self : t) (text : string) (departments : list string)
  : M sent string :=
  try_except
    (response <- requests_post network (url self) (headers self)
                   (data text departments) ;;
     _ <- lift (raise_for_status response) ;;
     body <- lift (resp_json response) ;;
     lift (answer body))%monad
    [ (is_RequestException,
       fun e =>
         raise (HTTPException 500
                  ("Ошибка при обращении к DeepSeek API: " ++ str e)));
      (is_KeyError_or_IndexError,
       fun e =>
         raise (HTTPException 500
                  ("Ошибка при обработке ответа от DeepSeek: " ++ str e))) ].

End Network.
End DeepSeekClassifier.

(** ** [QwenModel] *)

Module QwenModel.

Record t : Type := mk { api_key : string }.

Definition init (api_key : string) : t := {| api_key := api_key |}.

Definition url : string :=
  "https://dashscope.aliyuncs.com/api/v1/services/aigc/text-generation/generation".

Definition headers (self : t) : dict string :=
  [ ("Content-Type", "application/json");
    ("Authorization", ("Bearer " ++ api_key self)%string) ].

Definition data (text : string) (departments : list string) : json :=
  JObject
    [ ("model", JString "qwen-turbo");
      ("input",
       JObject
         [ ("messages",
            JArray
              [ JObject
                  [ ("role", JString "system");
                    ("content", JString "Ты - помощник по классификации обращений граждан.") ];
                JObject
                  [ ("role", JString "user");
                    ("content", JString (prompt text departments)) ] ]) ]);
      ("parameters",
       JObject
         [ ("temperature", JFloat (1 # 10));
           ("max_tokens", JInt 100) ]) ].

(** [result["output"]["text"].strip()]. *)
Definition answer (body : json) : result string :=
  and_then (getitem body "output") (fun output =>
  and_then (getitem output "text") strip_method).

Section Network.
Variable network : sent -> request -> result response.

Definition classify (self : t) (text : string) (departments : list string)
  : M sent string :=
  try_except
    (response <- requests_post network url (headers self)
                   (data text departments) ;;
     _ <- lift (raise_for_status response) ;;
     body <- lift (resp_json response) ;;
     lift (answer body))%monad
    [ (Exception,
       fun e => raise (HTTPException 500 ("Ошибка Qwen: " ++ str e))) ].

End Network.
End QwenModel.

(** ** [YandexGPTModel] *)

Module YandexGPTModel.

Record t : Type := mk { api_key : string }.

Definition init (api_key : string) : t := {| api_key := api_key |}.

Definition url : string :=
  "https://llm.api.cloud.yandex.net/foundationModels/v1/completion".

Definition headers (self : t) : dict string :=
  [ ("Content-Type", "application/json");
    ("Authorization", ("Api-Key " ++ api_key self)%string) ].

Definition data (text : string) (departments : list string) : json :=
  JObject
    [ ("modelUri", JString "gpt://b1gqs0e2qom8vq2a5q6s/yandexgpt-lite");
      ("completionOptions",
       JObject
         [ ("stream", JBool false);
           ("temperature", JFloat (1 # 10));
           ("maxTokens", JString "2000") ]);
      ("messages",
       JArray
         [ JObject
             [ ("role", JString "system");
               ("text", JString "Ты - помощник по классификации обращений граждан.") ];
           JObject
             [ ("role", JString "user");
               ("text", JString (prompt text departments)) ] ]) ].

(** [result["result"]["alternatives"][0]["message"]["text"].strip()]. *)
Definition answer (body : json) : result string :=
  and_then (getitem body "result") (fun res =>
  and_then (getitem res "alternatives") (fun alternatives =>
  and_then (getitem0 alternatives) (fun alternative =>
  and_then (getitem alternative "message") (fun message =>
  and_then (getitem message "text") strip_method)))).

Section Network.
Variable network : sent -> request -> result response.

Definition classify (self : t) (text : string) (departments : list string)
  : M sent string :=
  try_except
    (response <- requests_post network url (headers self)
                   (data text departments) ;;
     _ <- lift (raise_for_status response) ;;
     body <- lift (resp_json response) ;;
     lift (answer body))%monad
    [ (Exception,
       fun e => raise (HTTPException 500 ("Ошибка YandexGPT: " ++ str e))) ].

End Network.
End YandexGPTModel.

(** ** The factory [get_model] *)

(** An instance of one of the classes the factory knows. *)
Inductive model : Type :=
| DeepSeek (self : DeepSeekClassifier.t)
| Qwen (self : QwenModel.t)
| YandexGPT (self : YandexGPTModel.t).

(** The table of [get_model]: name to class. *)
Definition models : dict (string -> model) :=
  [ ("deepseek", fun api_key => DeepSeek (DeepSeekClassifier.init api_key));
    ("qwen", fun api_key => Qwen (QwenModel.init api_key));
    ("yandexgpt", fun api_key => YandexGPT (YandexGPTModel.init api_key)) ].

Definition get_model (model_name : string) (api_key : string)
  : result model :=
  if negb (dict_contains model_name models) then
    Raise (Exn ValueError ("Неподдерживаемая модель: " ++ model_name))
  else
    and_then (dict_get model_name models) (fun cls => Return (cls api_key)).

(** ** Calling a backend through the common interface *)

(** [model.classify(text, departments)] on an instance from the factory. *)
Definition classify (network : sent -> request -> result response)
    (m : model) (text : string) (departments : list string)
  : M sent string :=
  match m with
  | DeepSeek self => DeepSeekClassifier.classify network self text departments
  | Qwen self => QwenModel.classify network self text departments
  | YandexGPT self => YandexGPTModel.classify network self text departments
  end.

(** The one request a call posts. *)
Definition request_of (m : model) (text : string)
    (departments : list string) : request :=
  match m with
  | DeepSeek self =>
      mk_request (DeepSeekClassifier.url self)
        (DeepSeekClassifier.headers self)
        (DeepSeekClassifier.data text departments)
  | Qwen self =>
      mk_request QwenModel.url (QwenModel.headers self)
        (QwenModel.data text departments)
  | YandexGPT self =>
      mk_request YandexGPTModel.url (YandexGPTModel.headers self)
        (YandexGPTModel.data text departments)
  end.

(** Where each backend reads the answer in the parsed response. *)
Definition answer_of (m : model) : json -> result string :=
  match m with
  | DeepSeek _ => DeepSeekClassifier.answer
  | Qwen _ => QwenModel.answer
  | YandexGPT _ => YandexGPTModel.answer
  end.

(** The text each backend puts before the upstream detail when the request
    fails. *)
Definition request_error_prefix (m : model) : string :=
  match m with
  | DeepSeek _ => "Ошибка при обращении к DeepSeek API: "
  | Qwen _ => "Ошибка Qwen: "
  | YandexGPT _ => "Ошибка YandexGPT: "
  end.

(** An upstream failure with exception [e]: [requests.post] raised the
    [RequestException] [e], or the reply has a 4xx or 5xx status and [e] is
    the [HTTPError] that [raise_for_status] makes of it. *)
Definition upstream_failure (reply : result response) (e : exn) : Prop :=
  (reply = Raise e /\ is_RequestException e = true)
  \/ (exists r, reply = Return r
                /\ (400 <= status_code r < 600)%Z
                /\ raise_for_status r = Raise e).

(** ** The embedding classifier as a function of the scores *)

(** Apply a fallible function to the values of a dictionary, left to
    right, stopping at the first exception. *)
Fixpoint traverse {A B : Type} (g : A -> result B) (items : dict A)
  : result (dict B) :=
  match items with
  | [] => Return []
  | (k, a) :: rest =>
      and_then (g a) (fun b =>
      and_then (traverse g rest) (fun bs => Return ((k, b) :: bs)))
  end.

(** The values on which [traverse] applies its function. *)
Fixpoint attempted {A B : Type} (g : A -> result B) (items : dict A)
  : list A :=
  match items with
  | [] => []
  | (_, a) :: rest =>
      a :: match g a with
           | Return _ => attempted g rest
           | Raise _ => []
           end
  end.

(** The decision on a table of scores: lines 253 to 260 of the source. *)
Definition select (similarities : dict Q) : result (option string) :=
  and_then (py_max (fun q => q) (values similarities)) (fun max_similarity =>
  if Qlt_bool max_similarity threshold then Return None
  else
    and_then (py_max snd similarities) (fun best_department =>
    Return (Some (fst best_department)))).

Section Scores.

Variable embedding : Type.
Variable encode : string -> result embedding.
Variable cosine_similarity : embedding -> embedding -> result Q.

(** The table of similarities of a text with every department, or the
    first exception on the way to it. *)
Definition similarity_table (text : string) : result (dict Q) :=
  and_then (encode text) (fun text_embedding =>
  and_then (traverse encode department_descriptions)
    (fun department_embeddings =>
  traverse (cosine_similarity text_embedding) department_embeddings)).

(** The texts a call of [classify] hands to the encoder, in order. *)
Definition encoder_calls (text : string) : list string :=
  text :: match encode text with
          | Return _ => attempted encode department_descriptions
          | Raise _ => []
          end.

End Scores.

Arguments similarity_table {embedding} encode cosine_similarity text.
Arguments encoder_calls {embedding} encode text.
Arguments HuggingFaceClassifier.classify {embedding} encode cosine_similarity
  text departments _.
Arguments HuggingFaceClassifier.get_embedding {embedding} encode text _.

(** The exception [HuggingFaceClassifier.classify] raises in place of [e]. *)
Definition classification_error (e : exn) : exn :=
  HTTPException 500 ("Ошибка при классификации обращения: " ++ str e).

(** The encoder's log after [n] calls of [classify] in a row. *)
Fixpoint after_calls {embedding : Type} (encode : string -> result embedding)
    (cosine_similarity : embedding -> embedding -> result Q) (n : nat)
    (text : string) (departments : list string) (log : list string)
  : list string :=
  match n with
  | O => log
  | S n' =>
      after_calls encode cosine_similarity n' text departments
        (snd (HuggingFaceClassifier.classify encode cosine_similarity text
                departments log))
  end.

(** [q] is the greatest score of the table. *)
Definition is_max_score (q : Q) (similarities : dict Q) : Prop :=
  In q (values similarities)
  /\ forall q', In q' (values similarities) -> q' <= q.

(** All keys of a list are different, as a test. *)
Fixpoint distinct (l : list string) : bool :=
  match l with
  | [] => true
  | k :: l' => negb (existsb (String.eqb k) l') && distinct l'
  end.

(** ** Test doubles for the environment *)

Module Fake.

(** Vectors are the basis vectors of a space, named by their index; the
    cosine of two basis vectors is 1 when they are the same vector and 0
    otherwise. *)
Definition basis_cosine (a b : nat) : result Q :=
  Return (if Nat.eqb a b then 1 else 0).

(** An encoder that gives every text the same vector. *)
Definition constant_encode (text : string) : result nat := Return 0%nat.

(** The place of a text in a list, counted from [n]; 0 when absent. *)
Fixpoint index_from (n : nat) (text : string) (l : list string) : nat :=
  match l with
  | [] => 0
  | x :: l' => if String.eqb text x then n else index_from (S n) text l'
  end.

(** An encoder that gives the six descriptions the basis vectors 1 to 6
    and every other text the vector 0, orthogonal to them all. *)
Definition catalog_encode (text : string) : result nat :=
  Return (index_from 1 text (values department_descriptions)).

(** Two appeals: the one of the routing scenario, and gibberish. *)
Definition appeal : string := "The bus stop near my house has no shelter".
Definition gibberish : string := "asdkjasndkjasnd".

(** An encoder whose model cannot run. *)
Definition broken_encode (text : string) : result nat :=
  Raise (Exn RuntimeError "CUDA out of memory").

(** A remote side that is down: every request is answered 503 with a body
    that is not JSON. *)
Definition unavailable (log : sent) (req : request) : result response :=
  Return {| status_code := 503;
            reason := "Service Unavailable";
            resp_url := req_url req;
            resp_json :=
              Raise (Exn JSONDecodeError
                       "Expecting value: line 1 column 1 (char 0)") |}.

(** A remote side that answers 300 with a body of the DeepSeek shape. *)
Definition multiple_choices (log : sent) (req : request) : result response :=
  Return {| status_code := 300;
            reason := "Multiple Choices";
            resp_url := req_url req;
            resp_json :=
              Return (JObject
                [ ("choices",
                   JArray
                     [ JObject
                         [ ("message",
                            JObject
                              [ ("content",
                                 JString "Департамент культуры") ]) ] ]) ])
         |}.

(** A remote side that answers 200 with a sentence instead of a name. *)
Definition chatty (log : sent) (req : request) : result response :=
  Return {| status_code := 200;
            reason := "OK";
            resp_url := req_url req;
            resp_json :=
              Return (JObject
                [ ("output",
                   JObject [ ("text", JString " Скорее всего, транспорт. ") ])
                ]) |}.

End Fake.

(** ** Loading the encoder: [HuggingFaceClassifier.__init__] *)

(** What [__init__] asks of the [transformers] library, in order. *)
Inductive pretrained : Type :=
| TokenizerFrom (name : string)
| ModelFrom (name : string).

Module HuggingFaceLoader.
Section Pretrained.

(** The loaded tokenizer and the loaded network. *)
Variable Tokenizer : Type.
Variable Network : Type.

(** [AutoTokenizer.from_pretrained] and [AutoModel.from_pretrained]: the
    loaded object, or the exception raised (no such model, no network). *)
Variable AutoTokenizer_from_pretrained : string -> result Tokenizer.
Variable AutoModel_from_pretrained : string -> result Network.

(** The attributes of an instance. *)
Record t : Type := mk {
  model_name : string;
  tokenizer : Tokenizer;
  model : Network
}.

(** The state: the loads asked for so far, oldest first. *)
Definition loads : Type := list pretrained.

Definition load_tokenizer (name : string) : M loads Tokenizer :=
  fun log => (AutoTokenizer_from_pretrained name, log ++ [TokenizerFrom name]).

Definition load_model (name : string) : M loads Network :=
  fun log => (AutoModel_from_pretrained name, log ++ [ModelFrom name]).

(** [HuggingFaceClassifier()]. *)
Definition init : M loads t :=
  let name := "sberbank-ai/sbert_large_nlu_ru" in
  try_except
    (tok <- load_tokenizer name ;;
     net <- load_model name ;;
     ret {| model_name := name; tokenizer := tok; model := net |})%monad
    [ (Exception,
       fun e =>
         raise (HTTPException 500
                  ("Ошибка при инициализации модели: " ++ str e))) ].

End Pretrained.
End HuggingFaceLoader.

Arguments HuggingFaceLoader.init {Tokenizer Network}
  AutoTokenizer_from_pretrained AutoModel_from_pretrained _.

(** ** The service, [task03/main.py] *)

(** [isinstance(e, HTTPException)]. *)
Definition is_HTTPException (e : exn) : bool :=
  match e with
  | HTTPException _ _ => true
  | Exn _ _ => false
  end.

(** The detail of the reply when no department is found. *)
Definition undecided_detail : string :=
  "Не удалось определить подходящий департамент. Попробуйте переформулировать обращение.".

Module Main.

(** The validated body of a request: [text] has at least 10 characters. *)
Record Appeal : Type := mk_Appeal {
  text : string;
  contact_info : string
}.

Definition DEPARTMENTS : list string :=
  [ "Департамент транспорта";
    "Департамент культуры";
    "Департамент здравоохранения";
    "Департамент образования";
    "Департамент экологии";
    "Департамент физической культуры и спорта" ].

Section App.

(** The module-level [classifier]: its encoder and its scorer. *)
Variable embedding : Type.
Variable encode : string -> result embedding.
Variable cosine_similarity : embedding -> embedding -> result Q.

(** [process_appeal(appeal)]: the dictionary of the answer, or the
    [HTTPException] that FastAPI turns into an error reply. *)
Definition process_appeal (appeal : Appeal)
  : M HuggingFaceClassifier.calls (dict string) :=
  try_except
    (department <-
       HuggingFaceClassifier.classify encode cosine_similarity
         (text appeal) DEPARTMENTS ;;
     match department with
     | None => raise (HTTPException 400 undecided_detail)
     | Some department =>
         (* [not department] holds of the empty string too *)
         if String.eqb department "" then
           raise (HTTPException 400 undecided_detail)
         else
           ret [ ("status", "success");
                 ("department", department);
                 ("message",
                  ("Обращение направлено в " ++ department)%string) ]
     end)%monad
    [ (is_HTTPException, fun e => raise e);
      (Exception,
       fun e =>
         raise (HTTPException 500
                  ("Внутренняя ошибка сервера: " ++ str e))) ].

(** [get_departments()]. *)
Definition get_departments : dict (list string) :=
  [ ("departments", DEPARTMENTS) ].

End App.
End Main.

Arguments Main.process_appeal {embedding} encode cosine_similarity appeal _.

(** The exceptions of reading a parsed body are those of subscripts and
    of a missing method. *)
Definition is_lookup_error (e : exn) : bool :=
  match e with
  | Exn (KeyError | IndexError | TypeError | AttributeError) _ => true
  | _ => false
  end.

(** ** The clients: what they talk to and what they show *)

Inductive http_method : Type := GET | POST.

(** A call [requests.get(url)] or [requests.post(url, json=data)]. *)
Record http_call : Type := mk_call {
  call_method : http_method;
  call_url : string;
  call_json : option json
}.

(** What a Streamlit script puts on the page, in order. *)
Inductive widget : Type :=
| st_error (body : string)
| st_warning (body : string)
| st_success (body : string)
| st_info (body : string)
| st_markdown (body : string)
| st_spinner (label : string)
| st_expander (label : string)
| st_json (body : json).

(** The state of a client: the calls made, what was written to the
    terminal (one string per [print] or prompt), the page, the files
    written, and how often the clock was read. *)
Record world : Type := mk_world {
  wire : list http_call;
  stdout : list string;
  page : list widget;
  files : dict string;
  clock_reads : nat
}.

(** The surroundings of a client: the service behind the URL (its reply
    to a call, given the calls before it); [repr] and
    [json.dumps(., indent=2, ensure_ascii=False)] on parsed JSON;
    [datetime.now().strftime(format)] at the n-th reading of the clock;
    and the exception, if any, of writing a file of a given name. *)
Record env : Type := mk_env {
  service : list http_call -> http_call -> result response;
  repr : json -> string;
  dumps : json -> string;
  now : nat -> string -> string;
  write_error : string -> option exn
}.

Definition nl : string := String (ascii_of_nat 10) "".

(** The state once call [c] has been made. *)
Definition called (c : http_call) (w : world) : world :=
  mk_world (wire w ++ [c]) (stdout w) (page w) (files w) (clock_reads w).

Definition call (E : env) (c : http_call) : M world response :=
  fun w => (service E (wire w) c, called c w).

Definition requests_get (E : env) (url : string) : M world response :=
  call E (mk_call GET url None).

Definition requests_post_json (E : env) (url : string) (data : json)
  : M world response :=
  call E (mk_call POST url (Some data)).

(** Write a string to the terminal. *)
Definition write (s : string) (w : world) : world :=
  mk_world (wire w) (stdout w ++ [s]) (page w) (files w) (clock_reads w).

(** [print(s)], as a step and as a computation. *)
Definition say (s : string) (w : world) : world := write (s ++ nl) w.

Definition print (s : string) : M world unit := fun w => (Return tt, say s w).

(** The state once element [x] has been put on the page. *)
Definition shown (x : widget) (w : world) : world :=
  mk_world (wire w) (stdout w) (page w ++ [x]) (files w) (clock_reads w).

(** A call of a Streamlit element. *)
Definition st (x : widget) : M world unit :=
  fun w => (Return tt, shown x w).

(** The state once the clock has been read. *)
Definition ticked (w : world) : world :=
  mk_world (wire w) (stdout w) (page w) (files w) (S (clock_reads w)).

(** [datetime.now().strftime(format)]. *)
Definition strftime_now (E : env) (format : string) : M world string :=
  fun w => (Return (now E (clock_reads w) format), ticked w).

(** [with open(filename, 'w') as f: json.dump(data, f, ensure_ascii=False,
    indent=2)]: the file holds the text of [data], unless writing fails. *)
Definition dump_to_file (E : env) (filename : string) (data : json)
  : M world unit :=
  fun w =>
    match write_error E filename with
    | Some e => (Raise e, w)
    | None =>
        (Return tt,
         mk_world (wire w) (stdout w) (page w)
           (dict_set filename (dumps E data) (files w)) (clock_reads w))
    end.

(** [bool(j)]. *)
Definition truthy (j : json) : bool :=
  match j with
  | JNull => false
  | JBool b => b
  | JInt n => negb (n =? 0)%Z
  | JFloat q => negb (Qeq_bool q 0)
  | JString s => negb (String.eqb s "")
  | JArray l => match l with [] => false | _ :: _ => true end
  | JObject o => match o with [] => false | _ :: _ => true end
  end.

(** The text of a value inside an f-string: a string as it is, any other
    value by its [repr]. *)
Definition format_value (E : env) (j : json) : string :=
  match j with
  | JString s => s
  | _ => repr E j
  end.

(** The items [for x in j] goes through; a dictionary gives its keys and
    a string its characters. *)
Definition iterate (j : json) : result (list json) :=
  match j with
  | JArray l => Return l
  | JObject o => Return (map JString (keys o))
  | JString s => Return (map JString (characters s))
  | JNull => Raise (Exn TypeError "'NoneType' object is not iterable")
  | JBool _ => Raise (Exn TypeError "'bool' object is not iterable")
  | JInt _ => Raise (Exn TypeError "'int' object is not iterable")
  | JFloat _ => Raise (Exn TypeError "'float' object is not iterable")
  end.

(** [j.get(k, default)]: only a dictionary has the method. *)
Definition get_method (j : json) (k : string) (default : json)
  : result json :=
  match j with
  | JObject o =>
      Return (match dict_get k o with Return v => v | Raise _ => default end)
  | JNull =>
      Raise (Exn AttributeError "'NoneType' object has no attribute 'get'")
  | JBool _ =>
      Raise (Exn AttributeError "'bool' object has no attribute 'get'")
  | JInt _ =>
      Raise (Exn AttributeError "'int' object has no attribute 'get'")
  | JFloat _ =>
      Raise (Exn AttributeError "'float' object has no attribute 'get'")
  | JString _ =>
      Raise (Exn AttributeError "'str' object has no attribute 'get'")
  | JArray _ =>
      Raise (Exn AttributeError "'list' object has no attribute 'get'")
  end.

(** [d.update(items)] on a dictionary. *)
Definition dict_update {V : Type} (d : dict V) (items : dict V) : dict V :=
  fold_left (fun d kv => dict_set (fst kv) (snd kv) d) items d.

(** The attribute [j.update]: the bound method of a dictionary. It is
    looked up before the arguments of the call are evaluated. *)
Definition update_method (j : json) : result (dict json -> json) :=
  match j with
  | JObject o => Return (fun items => JObject (dict_update o items))
  | JNull =>
      Raise (Exn AttributeError "'NoneType' object has no attribute 'update'")
  | JBool _ =>
      Raise (Exn AttributeError "'bool' object has no attribute 'update'")
  | JInt _ =>
      Raise (Exn AttributeError "'int' object has no attribute 'update'")
  | JFloat _ =>
      Raise (Exn AttributeError "'float' object has no attribute 'update'")
  | JString _ =>
      Raise (Exn AttributeError "'str' object has no attribute 'update'")
  | JArray _ =>
      Raise (Exn AttributeError "'list' object has no attribute 'update'")
  end.

(** How a run of a console client ends: [sys.exit(code)], an [EOFError]
    of [input] at the end of the input, or another exception that nothing
    catches. *)
Inductive ending : Type :=
| Exited (code : Z)
| EndOfInput
| Crashed (e : exn).

(** [for i, x in enumerate(items, n): print(f"{i}. {x}")]. *)
Fixpoint say_numbered (E : env) (n : Z) (items : list json) (w : world)
  : world :=
  match items with
  | [] => w
  | x :: rest =>
      say_numbered E (n + 1) rest
        (say (str_of_Z n ++ ". " ++ format_value E x) w)
  end.

(** ** The console client of [task01/console_test.py] *)

Module Console01.

Record t : Type := mk { base_url : string }.

(** [ConsoleTester(base_url)]; the default is [http://localhost:8000]. *)
Definition init (base_url : string) : t := mk base_url.

Definition get_departments (E : env) (self : t) : M world json :=
  try_except
    (response <- requests_get E (base_url self ++ "/departments") ;;
     _ <- lift (raise_for_status response) ;;
     body <- lift (resp_json response) ;;
     lift (getitem body "departments"))%monad
    [ (Exception,
       fun e =>
         (_ <- print ("❌ Ошибка при получении списка департаментов: "
                      ++ str e) ;;
          ret JNull)%monad) ].

Definition process_appeal (E : env) (self : t) (text contact_info : string)
  : M world json :=
  try_except
    (response <-
       requests_post_json E (base_url self ++ "/process_appeal")
         (JObject [ ("text", JString text);
                    ("contact_info", JString contact_info) ]) ;;
     if (status_code response =? 400)%Z then
       body <- lift (resp_json response) ;;
       detail <- lift (get_method body "detail"
                         (JString "Не удалось определить департамент")) ;;
       _ <- print ("⚠️ " ++ format_value E detail) ;;
       ret JNull
     else
       _ <- lift (raise_for_status response) ;;
       lift (resp_json response))%monad
    [ (Exception,
       fun e =>
         (_ <- print ("❌ Ошибка при обработке обращения: " ++ str e) ;;
          ret JNull)%monad) ].

Definition print_menu (w : world) : world :=
  say "==================================="
    (say "3. Выход"
       (say "2. Показать список департаментов"
          (say "1. Отправить обращение"
             (say (nl ++ "=== Тестирование API Единого окна ===") w)))).

(** [run()], on the lines the user will type. Every [input] writes its
    prompt and takes the next line; the loop goes on until the user
    chooses to leave or the lines run out. *)
Fixpoint run (E : env) (self : t) (stdin : list string) (w : world)
  : ending * world :=
  let w := write (nl ++ "Выберите действие (1-3): ") (print_menu w) in
  match stdin with
  | [] => (EndOfInput, w)
  | line :: stdin =>
      let choice := strip line in
      if String.eqb choice "1" then
        let w :=
          write "Введите текст обращения (минимум 10 символов): "
            (say (nl ++ "=== Отправка обращения ===") w) in
        match stdin with
        | [] => (EndOfInput, w)
        | line :: stdin =>
            let text := strip line in
            if (length (characters text) <? 10)%nat then
              run E self stdin
                (say "❌ Текст обращения должен содержать минимум 10 символов"
                   w)
            else
              let w :=
                write "Введите контактную информацию (email или телефон): "
                  w in
              match stdin with
              | [] => (EndOfInput, w)
              | line :: stdin =>
                  let contact_info := strip line in
                  if String.eqb contact_info "" then
                    run E self stdin
                      (say "❌ Пожалуйста, укажите контактную информацию" w)
                  else
                    match
                      process_appeal E self text contact_info
                        (say (nl ++ "Отправка обращения...") w)
                    with
                    | (Raise e, w) => (Crashed e, w)
                    | (Return result, w) =>
                        let w :=
                          if truthy result then
                            say (dumps E result)
                              (say (nl ++ "✅ Обращение успешно обработано!")
                                 w)
                          else w in
                        let w :=
                          write (nl ++ "Нажмите Enter для продолжения...")
                            w in
                        match stdin with
                        | [] => (EndOfInput, w)
                        | _ :: stdin => run E self stdin w
                        end
                    end
              end
        end
      else if String.eqb choice "2" then
        match
          get_departments E self (say (nl ++ "=== Список департаментов ===") w)
        with
        | (Raise e, w) => (Crashed e, w)
        | (Return departments, w) =>
            if truthy departments then
              match iterate departments with
              | Raise e => (Crashed e, w)
              | Return items =>
                  let w :=
                    write (nl ++ "Нажмите Enter для продолжения...")
                      (say_numbered E 1 items w) in
                  match stdin with
                  | [] => (EndOfInput, w)
                  | _ :: stdin => run E self stdin w
                  end
              end
            else
              let w :=
                write (nl ++ "Нажмите Enter для продолжения...")
                  (say "Убедитесь, что основное приложение запущено"
                     (say "❌ Не удалось получить список департаментов" w)) in
              match stdin with
              | [] => (EndOfInput, w)
              | _ :: stdin => run E self stdin w
              end
        end
      else if String.eqb choice "3" then
        (Exited 0, say (nl ++ "До свидания!") w)
      else
        let w :=
          write (nl ++ "Нажмите Enter для продолжения...")
            (say (nl ++ "❌ Неверный выбор. Пожалуйста, выберите 1, 2 или 3")
               w) in
        match stdin with
        | [] => (EndOfInput, w)
        | _ :: stdin => run E self stdin w
        end
  end.

End Console01.

(** ** The console client of [task03/console_test.py] *)

Module Console03.

Record t : Type := mk { base_url : string }.

Definition init (base_url : string) : t := mk base_url.

(** [save_appeal_to_file(data)]: the name of the file, or [None]. *)
Definition save_appeal_to_file (E : env) (self : t) (data : json)
  : M world (option string) :=
  try_except
    (stamp <- strftime_now E "%Y%m%d_%H%M%S" ;;
     let filename := ("appeal_" ++ stamp ++ ".json")%string in
     _ <- dump_to_file E filename data ;;
     ret (Some filename))%monad
    [ (Exception,
       fun e =>
         (_ <- print ("❌ Ошибка при сохранении файла: " ++ str e) ;;
          ret None)%monad) ].

Definition get_departments (E : env) (self : t) : M world json :=
  try_except
    (response <- requests_get E (base_url self ++ "/departments") ;;
     _ <- lift (raise_for_status response) ;;
     body <- lift (resp_json response) ;;
     lift (getitem body "departments"))%monad
    [ (Exception,
       fun e =>
         (_ <- print ("❌ Ошибка при получении списка департаментов: "
                      ++ str e) ;;
          ret JNull)%monad) ].

Definition process_appeal (E : env) (self : t)
    (text contact_info theme : string) : M world json :=
  try_except
    (response <-
       requests_post_json E (base_url self ++ "/process_appeal")
         (JObject [ ("text", JString text);
                    ("contact_info", JString contact_info) ]) ;;
     if (status_code response =? 400)%Z then
       body <- lift (resp_json response) ;;
       detail <- lift (get_method body "detail"
                         (JString "Не удалось определить департамент")) ;;
       _ <- print ("⚠️ " ++ format_value E detail) ;;
       ret JNull
     else
       _ <- lift (raise_for_status response) ;;
       result <- lift (resp_json response) ;;
       update <- lift (update_method result) ;;
       date <- strftime_now E "%d.%m.%Y %H:%M" ;;
       department <- lift (get_method result "department"
                             (JString "Не определен")) ;;
       ret (update [ ("date", JString date);
                     ("theme", JString theme);
                     ("department", department);
                     ("text", JString text);
                     ("contact_info", JString contact_info) ]))%monad
    [ (Exception,
       fun e =>
         (_ <- print ("❌ Ошибка при обработке обращения: " ++ str e) ;;
          ret JNull)%monad) ].

Definition print_menu (w : world) : world :=
  say "==================================="
    (say "3. Выход"
       (say "2. Показать список департаментов"
          (say "1. Отправить обращение"
             (say (nl ++ "=== Тестирование API Единого окна ===") w)))).

(** What [run] shows and saves of an appeal that was processed: lines 101
    to 113 of the source. *)
Definition report (E : env) (self : t) (result : json) : M world unit :=
  (_ <- print (nl ++ "✅ Обращение успешно обработано!") ;;
   _ <- print (nl ++ "Данные обращения:") ;;
   date <- lift (getitem result "date") ;;
   _ <- print ("Дата: " ++ format_value E date) ;;
   theme <- lift (getitem result "theme") ;;
   _ <- print ("Тема: " ++ format_value E theme) ;;
   department <- lift (getitem result "department") ;;
   _ <- print ("Департамент: " ++ format_value E department) ;;
   filename <- save_appeal_to_file E self result ;;
   _ <- match filename with
        | Some name =>
            if String.eqb name "" then ret tt
            else print (nl ++ "✅ Данные сохранены в файл: " ++ name)
        | None => ret tt
        end ;;
   _ <- print (nl ++ "Полные данные:") ;;
   print (dumps E result))%monad.

Fixpoint run (E : env) (self : t) (stdin : list string) (w : world)
  : ending * world :=
  let w := write (nl ++ "Выберите действие (1-3): ") (print_menu w) in
  match stdin with
  | [] => (EndOfInput, w)
  | line :: stdin =>
      let choice := strip line in
      if String.eqb choice "1" then
        let w :=
          write "Введите тему обращения: "
            (say (nl ++ "=== Отправка обращения ===") w) in
        match stdin with
        | [] => (EndOfInput, w)
        | line :: stdin =>
            let theme := strip line in
            if String.eqb theme "" then
              run E self stdin
                (say "❌ Тема обращения не может быть пустой" w)
            else
              let w :=
                write "Введите текст обращения (минимум 10 символов): " w in
              match stdin with
              | [] => (EndOfInput, w)
              | line :: stdin =>
                  let text := strip line in
                  if (length (characters text) <? 10)%nat then
                    run E self stdin
                      (say "❌ Текст обращения должен содержать минимум 10 символов"
                         w)
                  else
                    let w :=
                      write
                        "Введите контактную информацию (email или телефон): "
                        w in
                    match stdin with
                    | [] => (EndOfInput, w)
                    | line :: stdin =>
                        let contact_info := strip line in
                        if String.eqb contact_info "" then
                          run E self stdin
                            (say "❌ Пожалуйста, укажите контактную информацию"
                               w)
                        else
                          match
                            process_appeal E self text contact_info theme
                              (say (nl ++ "Отправка обращения...") w)
                          with
                          | (Raise e, w) => (Crashed e, w)
                          | (Return result, w) =>
                              match
                                (if truthy result then report E self result
                                 else ret tt) w
                              with
                              | (Raise e, w) => (Crashed e, w)
                              | (Return _, w) =>
                                  let w :=
                                    write
                                      (nl
                                       ++ "Нажмите Enter для продолжения...")
                                      w in
                                  match stdin with
                                  | [] => (EndOfInput, w)
                                  | _ :: stdin => run E self stdin w
                                  end
                              end
                          end
                    end
              end
        end
      else if String.eqb choice "2" then
        match
          get_departments E self (say (nl ++ "=== Список департаментов ===") w)
        with
        | (Raise e, w) => (Crashed e, w)
        | (Return departments, w) =>
            if truthy departments then
              match iterate departments with
              | Raise e => (Crashed e, w)
              | Return items =>
                  let w :=
                    write (nl ++ "Нажмите Enter для продолжения...")
                      (say_numbered E 1 items w) in
                  match stdin with
                  | [] => (EndOfInput, w)
                  | _ :: stdin => run E self stdin w
                  end
              end
            else
              let w :=
                write (nl ++ "Нажмите Enter для продолжения...")
                  (say "Убедитесь, что основное приложение запущено"
                     (say "❌ Не удалось получить список департаментов" w)) in
              match stdin with
              | [] => (EndOfInput, w)
              | _ :: stdin => run E self stdin w
              end
        end
      else if String.eqb choice "3" then
        (Exited 0, say (nl ++ "До свидания!") w)
      else
        let w :=
          write (nl ++ "Нажмите Enter для продолжения...")
            (say (nl ++ "❌ Неверный выбор. Пожалуйста, выберите 1, 2 или 3")
               w) in
        match stdin with
        | [] => (EndOfInput, w)
        | _ :: stdin => run E self stdin w
        end
  end.

End Console03.

(** ** The Streamlit client of [task2/test_app.py] *)

Module TestApp.

Definition get_departments (E : env) : M world json :=
  try_except
    (response <- requests_get E "http://localhost:8000/departments" ;;
     _ <- lift (raise_for_status response) ;;
     body <- lift (resp_json response) ;;
     lift (getitem body "departments"))%monad
    [ (Exception,
       fun e =>
         (_ <- st (st_error ("Ошибка при получении списка департаментов: "
                             ++ str e)) ;;
          ret (JArray []))%monad) ].

Definition process_appeal (E : env) (text contact_info theme : string)
  : M world json :=
  try_except
    (response <-
       requests_post_json E "http://localhost:8000/process_appeal"
         (JObject [ ("text", JString text);
                    ("contact_info", JString contact_info) ]) ;;
     if (status_code response =? 400)%Z then
       body <- lift (resp_json response) ;;
       detail <- lift (get_method body "detail"
                         (JString "Не удалось определить департамент. Попробуйте переформулировать обращение.")) ;;
       _ <- st (st_warning (format_value E detail)) ;;
       ret JNull
     else
       _ <- lift (raise_for_status response) ;;
       result <- lift (resp_json response) ;;
       update <- lift (update_method result) ;;
       date <- strftime_now E "%d.%m.%Y %H:%M" ;;
       department <- lift (get_method result "department"
                             (JString "Не определен")) ;;
       ret (update [ ("date", JString date);
                     ("theme", JString theme);
                     ("department", department) ]))%monad
    [ (Exception,
       fun e =>
         (_ <- st (st_error ("Ошибка при обработке обращения: " ++ str e)) ;;
          ret JNull)%monad) ].

(** What the page shows of an appeal that was processed: lines 104 to
    114 of the source. *)
Definition show (E : env) (result : json) : M world unit :=
  (_ <- st (st_success "✅ Обращение успешно обработано!") ;;
   _ <- st (st_markdown "### Данные обращения:") ;;
   date <- lift (getitem result "date") ;;
   _ <- st (st_markdown ("**Дата:** " ++ format_value E date)) ;;
   theme <- lift (getitem result "theme") ;;
   _ <- st (st_markdown ("**Тема:** " ++ format_value E theme)) ;;
   department <- lift (getitem result "department") ;;
   _ <- st (st_markdown ("**Департамент:** " ++ format_value E department)) ;;
   _ <- st (st_expander "Показать полные данные") ;;
   st (st_json result))%monad.

(** The block under the button that sends the appeal, lines 93 to 114,
    on the values of the three input fields. *)
Definition submit (E : env) (theme appeal_text contact_info : string)
  : M world unit :=
  if String.eqb theme "" then
    st (st_warning "Пожалуйста, укажите тему обращения")
  else if String.eqb appeal_text ""
          || (length (characters appeal_text) <? 10)%nat then
    st (st_warning "Текст обращения должен содержать минимум 10 символов")
  else if String.eqb contact_info "" then
    st (st_warning "Пожалуйста, укажите контактную информацию")
  else
    (_ <- st (st_spinner "Обрабатываем обращение...") ;;
     result <- process_appeal E appeal_text contact_info theme ;;
     if truthy result then show E result else ret tt)%monad.



End TestApp.

(** ** What the clients are expected to do, as predicates *)

(** The reply to call [c] in state [w] is a good one with parsed body
    [body]: its status is not 4xx or 5xx and its body is JSON. *)
Definition good_reply (E : env) (c : http_call) (w : world) (body : json)
  : Prop :=
  exists r,
    service E (wire w) c = Return r
    /\ ~ (400 <= status_code r < 600)%Z
    /\ resp_json r = Return body.

(** The outcome of fetching the departments with call [c] from state [w]:
    the value under the key [departments] of a good reply, with nothing
    reported; or, when there is no such reply, the value [failure] after
    exactly one report, made of an exception by [report]. Either way the
    call was made once and nothing is raised. *)
Definition fetched (E : env) (c : http_call) (failure : json)
    (report : exn -> world -> world) (w : world)
    (outcome : result json * world) : Prop :=
  (exists o v,
      good_reply E c w (JObject o)
      /\ dict_get "departments" o = Return v
      /\ outcome = (Return v, called c w))
  \/ ((forall o v, good_reply E c w (JObject o) ->
                    dict_get "departments" o = Return v -> False)
      /\ exists e, outcome = (Return failure, report e (called c w))).

(** The call that sends an appeal. *)
Definition appeal_call (url text contact_info : string) : http_call :=
  mk_call POST url
    (Some (JObject [ ("text", JString text);
                     ("contact_info", JString contact_info) ])).


(** The detail a client shows for a reply with status 400 and a JSON
    object as its body: the one of the reply, or the client's own. *)
Definition detail_of (o : dict json) (default : string) : json :=
  match dict_get "detail" o with
  | Return v => v
  | Raise _ => JString default
  end.

(** The fields the clients of task03 and of the Streamlit page add to an
    answer. *)
Definition console_fields (date theme text contact_info : string)
    (department : json) : dict json :=
  [ ("date", JString date);
    ("theme", JString theme);
    ("department", department);
    ("text", JString text);
    ("contact_info", JString contact_info) ].

Definition page_fields (date theme : string) (department : json)
  : dict json :=
  [ ("date", JString date);
    ("theme", JString theme);
    ("department", department) ].

(** The department a client records for an answer: the one of the
    answer, or a placeholder. *)
Definition department_of (o : dict json) : json :=
  match dict_get "department" o with
  | Return v => v
  | Raise _ => JString "Не определен"
  end.

(** A value has the three fields that the report of an appeal reads. *)
Definition reportable (v : json) : Prop :=
  exists o date theme department,
    v = JObject o
    /\ dict_get "date" o = Return date
    /\ dict_get "theme" o = Return theme
    /\ dict_get "department" o = Return department.

(** The ways a run of a console client can end: the user leaves and the
    exit code is 0; the typed lines run out; or the service has sent, as
    its departments, a value that counts as true and cannot be iterated,
    and the [TypeError] of the loop over it is not caught. *)
Definition expected_ending (x : ending) : Prop :=
  match x with
  | Exited code => code = 0%Z
  | EndOfInput => True
  | Crashed e => exists v, truthy v = true /\ iterate v = Raise e
  end.

(** The three fields of the page are filled in well enough to send. *)
Definition page_valid (theme appeal_text contact_info : string) : bool :=
  negb (String.eqb theme "")
  && negb (length (characters appeal_text) <? 10)%nat
  && negb (String.eqb contact_info "").

(** ** More test doubles: encoders, loaders, remote sides and services *)

Module Sample.

(** An encoder that fails on the description of the second department,
    and gives every other text the same vector. *)
Definition culture_fails (text : string) : result nat :=
  if String.eqb text (snd (nth 1 department_descriptions ("", "")))
  then Raise (Exn RuntimeError "CUDA out of memory")
  else Return 0%nat.



(** A remote side that answers 200 in the shape DeepSeek uses, with a
    name between white space. *)
Definition deepseek_answers (log : sent) (req : request) : result response :=
  Return {| status_code := 200;
            reason := "OK";
            resp_url := req_url req;
            resp_json :=
              Return (JObject
                [ ("id", JString "1");
                  ("choices",
                   JArray
                     [ JObject
                         [ ("index", JInt 0);
                           ("message",
                            JObject
                              [ ("role", JString "assistant");
                                ("content",
                                 JString " Департамент культуры ") ]) ] ]) ])
         |}.

(** A remote side that answers 200 with no content in the message. *)
Definition deepseek_null_content (log : sent) (req : request)
  : result response :=
  Return {| status_code := 200;
            reason := "OK";
            resp_url := req_url req;
            resp_json :=
              Return (JObject
                [ ("choices",
                   JArray
                     [ JObject
                         [ ("message",
                            JObject [ ("content", JNull) ]) ] ]) ])
         |}.

(** The answer of the service to an appeal it has routed. *)
Definition routed : dict json :=
  [ ("status", JString "success");
    ("department", JString "Департамент транспорта");
    ("message", JString "Обращение направлено в Департамент транспорта") ].

(** A clock that has stopped at noon of the first of June 2025. *)
Definition clock (reads : nat) (format : string) : string :=
  if String.eqb format "%Y%m%d_%H%M%S" then "20250601_120000"
  else "01.06.2025 12:00".

(** Surroundings in which the service routes every appeal, and in which
    it finds no department for any. *)
Definition accepting : env :=
  {| service := fun _ _ =>
       Return (mk_response 200 "OK" "http://localhost:8000/"
                 (Return (JObject routed)));
     repr := fun _ => "?";
     dumps := fun _ => "{}";
     now := clock;
     write_error := fun _ => None |}.

Definition undecided_reply : response :=
  mk_response 400 "Bad Request" "http://localhost:8000/process_appeal"
    (Return (JObject [ ("detail", JString undecided_detail) ])).

Definition rejecting : env :=
  {| service := fun _ _ => Return undecided_reply;
     repr := fun _ => "?";
     dumps := fun _ => "{}";
     now := clock;
     write_error := fun _ => None |}.

(** A client that has done nothing yet. *)
Definition start : world := mk_world [] [] [] [] 0.


End Sample.

(** ** Proof steps for the remote backends *)

(** Unfold a call of a remote backend down to the reply of the network. *)
Ltac unfold_remote :=
  unfold DeepSeekClassifier.classify, QwenModel.classify,
    YandexGPTModel.classify, try_except, bind, requests_post, lift, raise.

(** Case analysis on the next step of a call that has been unfolded. *)
Ltac step_remote :=
  match goal with
  | |- context [raise_for_status ?r] =>
      destruct (raise_for_status r) as [[]|?] eqn:?
  | |- context [resp_json ?r] => destruct (resp_json r) as [?|?] eqn:?
  | |- context [DeepSeekClassifier.answer ?b] =>
      destruct (DeepSeekClassifier.answer b) as [?|?] eqn:?
  | |- context [QwenModel.answer ?b] =>
      destruct (QwenModel.answer b) as [?|?] eqn:?
  | |- context [YandexGPTModel.answer ?b] =>
      destruct (YandexGPTModel.answer b) as [?|?] eqn:?
  | |- context [if is_RequestException ?e then _ else _] =>
      destruct (is_RequestException e)
  | |- context [if is_KeyError_or_IndexError ?e then _ else _] =>
      destruct (is_KeyError_or_IndexError e)
  end;
  cbn [find fst snd Exception].

(** * Properties *)

(** ** Comparisons of scores *)

Lemma Qlt_bool_iff (x y : Q) : Qlt_bool x y = true <-> x < y.
Proof.
  unfold Qlt_bool. rewrite negb_true_iff. split.
  - intro H. apply Qnot_le_lt. intro Hle.
    apply Qle_bool_iff in Hle. congruence.
  - intro H. destruct (Qle_bool y x) eqn:E; [|reflexivity].
    apply Qle_bool_iff in E. exfalso. exact (Qlt_not_le _ _ H E).
Qed.

Lemma Qlt_bool_false_iff (x y : Q) : Qlt_bool x y = false <-> y <= x.
Proof.
  unfold Qlt_bool. rewrite negb_false_iff. apply Qle_bool_iff.
Qed.

(** ** The builtin [max] *)

Section MaxLoop.

Context {A : Type} (key : A -> Q).

Lemma max_loop_cons (cur x : A) (l : list A) :
  max_loop key cur (x :: l)
  = max_loop key (if Qlt_bool (key cur) (key x) then x else cur) l.
Proof. reflexivity. Qed.

Lemma max_loop_app (cur : A) (l1 l2 : list A) :
  max_loop key cur (l1 ++ l2) = max_loop key (max_loop key cur l1) l2.
Proof. unfold max_loop. apply fold_left_app. Qed.

(** The running maximum stays when nothing after it is greater. *)
Lemma max_loop_stays (l : list A) (cur : A) :
  (forall y, In y l -> key y <= key cur) -> max_loop key cur l = cur.
Proof.
  induction l as [|x l IH]; intros H; [reflexivity|].
  rewrite max_loop_cons.
  assert (Hx : Qlt_bool (key cur) (key x) = false).
  { apply Qlt_bool_false_iff, H. now left. }
  rewrite Hx. apply IH. intros y Hy. apply H. now right.
Qed.

(** An item greater than everything before it becomes the maximum. *)
Lemma max_loop_reaches (pre : list A) (cur m : A) :
  key cur < key m ->
  (forall y, In y pre -> key y < key m) ->
  max_loop key cur (pre ++ [m]) = m.
Proof.
  revert cur. induction pre as [|x pre IH]; intros cur Hcur Hpre.
  - cbn. apply Qlt_bool_iff in Hcur. now rewrite Hcur.
  - cbn [app]. rewrite max_loop_cons. apply IH.
    + destruct (Qlt_bool (key cur) (key x)); [|exact Hcur].
      apply Hpre. now left.
    + intros y Hy. apply Hpre. now right.
Qed.

(** [max] returns the first item among those of greatest key. *)
Lemma max_loop_first (pre post : list A) (m cur : A) (l : list A) :
  cur :: l = pre ++ m :: post ->
  (forall y, In y pre -> key y < key m) ->
  (forall y, In y post -> key y <= key m) ->
  max_loop key cur l = m.
Proof.
  intros E Hpre Hpost. destruct pre as [|c pre].
  - cbn in E. injection E as -> ->. now apply max_loop_stays.
  - cbn in E. injection E as -> ->.
    change (m :: post) with ([m] ++ post).
    rewrite app_assoc, max_loop_app, max_loop_reaches.
    + now apply max_loop_stays.
    + apply Hpre. now left.
    + intros y Hy. apply Hpre. now right.
Qed.

Lemma max_loop_In (l : list A) (cur : A) : In (max_loop key cur l) (cur :: l).
Proof.
  revert cur. induction l as [|x l IH]; intros cur; [now left|].
  rewrite max_loop_cons.
  destruct (IH (if Qlt_bool (key cur) (key x) then x else cur)) as [E|H].
  - rewrite <- E. destruct (Qlt_bool (key cur) (key x)).
    + right. now left.
    + now left.
  - right. now right.
Qed.

Lemma max_loop_ge_cur (l : list A) (cur : A) :
  key cur <= key (max_loop key cur l).
Proof.
  revert cur. induction l as [|x l IH]; intros cur; [apply Qle_refl|].
  rewrite max_loop_cons.
  destruct (Qlt_bool (key cur) (key x)) eqn:E; [|apply IH].
  apply Qlt_bool_iff in E.
  apply Qle_trans with (key x); [now apply Qlt_le_weak | apply IH].
Qed.

Lemma max_loop_ge (l : list A) (cur y : A) :
  In y (cur :: l) -> key y <= key (max_loop key cur l).
Proof.
  revert cur. induction l as [|x l IH]; intros cur Hy.
  - destruct Hy as [<-|[]]. apply Qle_refl.
  - rewrite max_loop_cons. destruct Hy as [<-|[<-|Hy]].
    + destruct (Qlt_bool (key cur) (key x)) eqn:E.
      * apply Qlt_bool_iff in E.
        apply Qle_trans with (key x);
          [now apply Qlt_le_weak | apply max_loop_ge_cur].
      * apply max_loop_ge_cur.
    + destruct (Qlt_bool (key cur) (key x)) eqn:E.
      * apply max_loop_ge_cur.
      * apply Qlt_bool_false_iff in E.
        apply Qle_trans with (key cur); [exact E | apply max_loop_ge_cur].
    + apply IH. now right.
Qed.

(** The maximum of the keys is the key of the maximal item. *)
Lemma max_loop_map (l : list A) (cur : A) :
  max_loop (fun q => q) (key cur) (map key l) = key (max_loop key cur l).
Proof.
  revert cur. induction l as [|x l IH]; intros cur; [reflexivity|].
  unfold max_loop in *. cbn [map fold_left].
  destruct (Qlt_bool (key cur) (key x)); apply IH.
Qed.

End MaxLoop.

(** ** Dictionaries *)

Lemma distinct_NoDup (l : list string) : distinct l = true -> NoDup l.
Proof.
  induction l as [|k l IH]; cbn; intros H; [constructor|].
  apply andb_prop in H as [Hk Hl]. constructor; [|now apply IH].
  intro Hin. apply negb_true_iff in Hk.
  assert (existsb (String.eqb k) l = true); [|congruence].
  apply existsb_exists. exists k. split; [exact Hin | apply String.eqb_refl].
Qed.

Lemma dict_set_fresh {V : Type} (k : string) (v : V) (d : dict V) :
  ~ In k (keys d) -> dict_set k v d = d ++ [(k, v)].
Proof.
  induction d as [|[k' v'] d IH]; cbn; intros H; [reflexivity|].
  destruct (String.eqb_spec k k') as [->|Hne].
  - exfalso. apply H. now left.
  - f_equal. apply IH. intro Hin. apply H. now right.
Qed.

(** Filling a dictionary with entries of new, distinct keys appends them. *)
Lemma fill_fresh {V : Type} (bs acc : dict V) :
  NoDup (keys (acc ++ bs)) ->
  fold_left (fun d kb => dict_set (fst kb) (snd kb) d) bs acc = acc ++ bs.
Proof.
  revert acc. induction bs as [|[k b] bs IH]; intros acc H; cbn.
  - now rewrite app_nil_r.
  - rewrite dict_set_fresh.
    + rewrite IH; rewrite <- app_assoc; [reflexivity | exact H].
    + unfold keys in H. rewrite map_app in H. cbn in H.
      apply NoDup_remove_2 in H. intro Hin. apply H.
      apply in_or_app. now left.
Qed.

Lemma traverse_keys {A B : Type} (g : A -> result B) (items : dict A) :
  forall bs, traverse g items = Return bs -> keys bs = keys items.
Proof.
  induction items as [|[k a] items IH]; cbn; intros bs H.
  - now injection H as <-.
  - destruct (g a) as [b|e]; cbn in H; [|discriminate].
    destruct (traverse g items) as [bs'|e]; cbn in H; [|discriminate].
    injection H as <-. cbn. f_equal. now apply IH.
Qed.



(** A comprehension whose body is a fallible function of the value,
    together with an update [tr] of the state, is [traverse]. *)
Lemma dict_comprehension_run {S A B : Type} (f : string -> A -> M S B)
    (g : A -> result B) (tr : A -> S -> S) :
  (forall k a s, f k a s = (g a, tr a s)) ->
  forall (items : dict A) (acc : dict B) (s : S),
    dict_comprehension f items acc s
    = (and_then (traverse g items)
         (fun bs =>
            Return (fold_left (fun d kb => dict_set (fst kb) (snd kb) d)
                      bs acc)),
       fold_left (fun s a => tr a s) (attempted g items) s).
Proof.
  intros Hf. induction items as [|[k a] items IH]; intros acc s.
  - reflexivity.
  - cbn [dict_comprehension traverse attempted]. unfold bind.
    rewrite Hf. destruct (g a) as [b|e]; cbn [and_then fold_left].
    + rewrite IH. destruct (traverse g items); reflexivity.
    + reflexivity.
Qed.

Lemma fold_left_snoc {A : Type} (l s : list A) :
  fold_left (fun s a => s ++ [a]) l s = s ++ l.
Proof.
  revert s. induction l as [|a l IH]; intros s; cbn.
  - now rewrite app_nil_r.
  - rewrite IH, <- app_assoc. reflexivity.
Qed.

Lemma fold_left_same {A S : Type} (l : list A) (s : S) :
  fold_left (fun s _ => s) l s = s.
Proof. induction l; cbn; auto. Qed.

Lemma department_names_distinct : NoDup (keys department_descriptions).
Proof. apply distinct_NoDup. vm_compute. reflexivity. Qed.

(** ** The embedding classifier: one call *)

Section ClassifyRun.

Context {embedding : Type}.
Variable encode : string -> result embedding.
Variable cosine_similarity : embedding -> embedding -> result Q.

(** A call decides on the table of similarities, wraps the first
    exception, and hands to the encoder the text and then the
    descriptions. *)
Lemma classify_run (text : string) (departments : list string)
    (log : list string) :
  HuggingFaceClassifier.classify encode cosine_similarity text departments
    log
  = (match and_then (similarity_table encode cosine_similarity text) select
     with
     | Return r => Return r
     | Raise e => Raise (classification_error e)
     end,
     log ++ encoder_calls encode text).
Proof.
  unfold HuggingFaceClassifier.classify, try_except, bind at 1,
    HuggingFaceClassifier.get_embedding, similarity_table, encoder_calls,
    classification_error.
  destruct (encode text) as [e|x]; cbn [and_then]; [|reflexivity].
  unfold bind at 1.
  rewrite (dict_comprehension_run _ encode (fun a s => s ++ [a]))
    by reflexivity.
  rewrite fold_left_snoc, <- app_assoc. cbn [app].
  destruct (traverse encode department_descriptions) as [embs|x] eqn:Eembs;
    cbn [and_then]; [|reflexivity].
  assert (Hk : NoDup (keys embs)).
  { rewrite (traverse_keys _ _ _ Eembs). apply department_names_distinct. }
  rewrite (fill_fresh embs []) by exact Hk. cbn [app].
  unfold bind at 1.
  rewrite (dict_comprehension_run _ (cosine_similarity e) (fun _ s => s))
    by reflexivity.
  rewrite fold_left_same.
  destruct (traverse (cosine_similarity e) embs) as [sims|x] eqn:Esims;
    cbn [and_then]; [|reflexivity].
  assert (Hs : NoDup (keys sims)).
  { now rewrite (traverse_keys _ _ _ Esims). }
  rewrite (fill_fresh sims []) by exact Hs. cbn [app].
  unfold select, bind, lift, ret.
  destruct (py_max (fun q => q) (values sims)) as [m|x]; cbn [and_then];
    [|reflexivity].
  destruct (Qlt_bool m threshold); [reflexivity|].
  destruct (py_max snd sims); reflexivity.
Qed.

(** A table of similarities has the six departments, in catalog order. *)
Lemma similarity_table_keys (text : string) (sims : dict Q) :
  similarity_table encode cosine_similarity text = Return sims ->
  keys sims = keys department_descriptions.
Proof.
  unfold similarity_table. intros H.
  destruct (encode text) as [e|x]; cbn [and_then] in H; [|discriminate].
  destruct (traverse encode department_descriptions) as [embs|x] eqn:E;
    cbn [and_then] in H; [|discriminate].
  now rewrite (traverse_keys _ _ _ H), (traverse_keys _ _ _ E).
Qed.

(** On a table of similarities, the decision is the first item of
    greatest score, or nothing when that score is under the threshold. *)
Lemma select_table (text : string) (sims : dict Q) :
  similarity_table encode cosine_similarity text = Return sims ->
  exists x rest,
    sims = x :: rest
    /\ select sims
       = Return (if Qlt_bool (snd (max_loop snd x rest)) threshold
                 then None else Some (fst (max_loop snd x rest))).
Proof.
  intros H. apply similarity_table_keys in H.
  destruct sims as [|x rest].
  { apply (f_equal (@length string)) in H. vm_compute in H. discriminate. }
  exists x, rest. split; [reflexivity|].
  unfold select, values. cbn [map py_max and_then].
  rewrite (max_loop_map snd).
  now destruct (Qlt_bool _ threshold).
Qed.

End ClassifyRun.

Section EmbeddingClassifier.

Context {embedding : Type}.
Variable encode : string -> result embedding.
Variable cosine_similarity : embedding -> embedding -> result Q.

(** When the scores are computed, the outcome is decided by the first
    item of greatest score. *)
Lemma classify_first_max (text : string) (departments : list string)
    (log : list string) (sims pre post : dict Q) (d : string) (q : Q) :
  similarity_table encode cosine_similarity text = Return sims ->
  sims = pre ++ (d, q) :: post ->
  (forall d' q', In (d', q') pre -> q' < q) ->
  (forall d' q', In (d', q') post -> q' <= q) ->
  fst (HuggingFaceClassifier.classify encode cosine_similarity text
         departments log)
  = Return (if Qlt_bool q threshold then None else Some d).
Proof.
  intros Hsims Hsplit Hpre Hpost.
  rewrite classify_run. cbn [fst]. rewrite Hsims. cbn [and_then].
  destruct (select_table _ _ _ _ Hsims) as (x & rest & Hx & ->).
  rewrite (max_loop_first snd pre post (d, q) x rest).
  - reflexivity.
  - now rewrite <- Hx.
  - intros [d' q'] Hy. exact (Hpre d' q' Hy).
  - intros [d' q'] Hy. exact (Hpost d' q' Hy).
Qed.

(** When every text is encoded, the encoder is called on the text and on
    each description, in catalog order. *)
Lemma attempted_all {A B : Type} (g : A -> result B) (items : dict A) :
  (forall a, In a (values items) -> exists b, g a = Return b) ->
  attempted g items = values items.
Proof.
  induction items as [|[k a] items IH]; intros H; [reflexivity|].
  cbn. destruct (H a) as [b Hb]; [now left|]. rewrite Hb. f_equal.
  apply IH. intros a' Ha'. apply H. now right.
Qed.

Lemma encoder_calls_all (text : string) :
  (forall t, In t (text :: values department_descriptions) ->
             exists v, encode t = Return v) ->
  encoder_calls encode text = text :: values department_descriptions.
Proof.
  intros H. unfold encoder_calls.
  destruct (H text) as [v Hv]; [now left|]. rewrite Hv. f_equal.
  apply attempted_all. intros a Ha. apply H. now right.
Qed.

(** The first failure of [traverse] is a failure of its function. *)
Lemma traverse_raises {A B : Type} (g : A -> result B) (items : dict A) :
  (exists a, In a (values items) /\ exists e, g a = Raise e) ->
  exists a e, In a (values items) /\ g a = Raise e
              /\ traverse g items = Raise e.
Proof.
  induction items as [|[k a] items IH]; intros (a0 & Hin & e0 & He0).
  - destruct Hin.
  - cbn [traverse]. destruct (g a) as [b|e] eqn:Ea.
    + destruct Hin as [<-|Hin]; [cbn in He0; congruence|].
      destruct IH as (a1 & e1 & Hin1 & He1 & Ht); [now exists a0; eauto|].
      exists a1, e1. rewrite Ht. repeat split; [now right | exact He1].
    + exists a, e. repeat split; [now left | exact Ea].
Qed.

Lemma similarity_table_raises (text : string) :
  (exists t, In t (text :: values department_descriptions)
             /\ exists e, encode t = Raise e) ->
  exists t e, In t (text :: values department_descriptions)
              /\ encode t = Raise e
              /\ similarity_table encode cosine_similarity text = Raise e.
Proof.
  intros (t & Hin & e & He). unfold similarity_table.
  destruct (encode text) as [v|e'] eqn:Etext.
  - destruct Hin as [<-|Hin]; [congruence|].
    destruct (traverse_raises encode department_descriptions)
      as (a1 & e1 & Hin1 & He1 & Ht); [now exists t; eauto|].
    exists a1, e1. cbn [and_then]. rewrite Ht.
    repeat split; [now right | exact He1].
  - exists text, e'. repeat split; [now left | exact Etext].
Qed.

End EmbeddingClassifier.

(** ** Claims on the embedding classifier *)

(** C1. Whenever the similarities of a text with the department
    descriptions are computed, [classify] returns [None] (undecided)
    exactly when the greatest of them is strictly below the threshold 0.3,
    and otherwise returns a department that attains the greatest score;
    the department list passed in plays no part. *)
Theorem classify_threshold :
  forall (embedding : Type) (encode : string -> result embedding)
         (cosine_similarity : embedding -> embedding -> result Q)
         (text : string) (departments : list string) (log : list string)
         (sims : dict Q),
    similarity_table encode cosine_similarity text = Return sims ->
    exists d q,
      In (d, q) sims
      /\ is_max_score q sims
      /\ (fst (HuggingFaceClassifier.classify encode cosine_similarity text
                 departments log) = Return None
          <-> q < threshold)
      /\ (fst (HuggingFaceClassifier.classify encode cosine_similarity text
                 departments log) = Return (Some d)
          <-> ~ q < threshold).
Proof.
  intros embedding encode cosine_similarity text departments log sims Hsims.
  destruct (select_table _ _ _ _ Hsims) as (x & rest & -> & Hsel).
  pose proof (max_loop_In snd rest x) as Hin.
  destruct (max_loop snd x rest) as [d q] eqn:Ebest.
  exists d, q. split; [exact Hin|]. split.
  - split.
    + apply (in_map snd) in Hin. exact Hin.
    + intros q' Hq'. apply in_map_iff in Hq' as (y & <- & Hy).
      pose proof (max_loop_ge snd rest x y Hy) as Hge.
      now rewrite Ebest in Hge.
  - rewrite classify_run. cbn [fst]. rewrite Hsims. cbn [and_then].
    rewrite Hsel. cbn [fst snd].
    destruct (Qlt_bool q threshold) eqn:E.
    + apply Qlt_bool_iff in E. split; split; intros H;
        try reflexivity; try exact E; try discriminate; contradiction.
    + apply Qlt_bool_false_iff in E. split; split; intros H;
        try reflexivity; try discriminate.
      * exfalso. exact (Qlt_not_le _ _ H E).
      * intro Hlt. exact (Qlt_not_le _ _ Hlt E).
Qed.

(** C3, as amended. Let the similarities be computed and let [d] be the
    department listed first among those of greatest score [q], shared or
    not. When [q] is at least the threshold, [classify] returns [d], and a
    repeated call with the same inputs returns [d] again; when [q] is
    below the threshold, [classify] returns [None]. *)
Theorem tie_first_listed :
  forall (embedding : Type) (encode : string -> result embedding)
         (cosine_similarity : embedding -> embedding -> result Q)
         (text : string) (departments : list string) (log : list string)
         (sims pre post : dict Q) (d : string) (q : Q),
    similarity_table encode cosine_similarity text = Return sims ->
    sims = pre ++ (d, q) :: post ->
    (forall d' q', In (d', q') pre -> q' < q) ->
    (forall d' q', In (d', q') post -> q' <= q) ->
    (threshold <= q ->
     fst (HuggingFaceClassifier.classify encode cosine_similarity text
            departments log) = Return (Some d)
     /\ fst (HuggingFaceClassifier.classify encode cosine_similarity text
               departments
               (snd (HuggingFaceClassifier.classify encode
                       cosine_similarity text departments log)))
        = Return (Some d))
    /\ (q < threshold ->
        fst (HuggingFaceClassifier.classify encode cosine_similarity text
               departments log) = Return None).
Proof.
  intros embedding encode cosine_similarity text departments log sims pre
    post d q Hsims Hsplit Hpre Hpost.
  split; intros Hq.
  - apply Qlt_bool_false_iff in Hq.
    split;
      rewrite (classify_first_max _ _ _ _ _ _ _ _ _ _ Hsims Hsplit Hpre
                 Hpost);
      now rewrite Hq.
  - apply Qlt_bool_iff in Hq.
    rewrite (classify_first_max _ _ _ _ _ _ _ _ _ _ Hsims Hsplit Hpre Hpost).
    now rewrite Hq.
Qed.

(** A decided department is a key of the catalog inside [classify]. *)
Lemma decided_in_catalog {embedding : Type}
    (encode : string -> result embedding)
    (cosine_similarity : embedding -> embedding -> result Q)
    (text : string) (departments : list string) (log : list string)
    (d : string) :
  fst (HuggingFaceClassifier.classify encode cosine_similarity text
         departments log) = Return (Some d) ->
  In d (keys department_descriptions).
Proof.
  rewrite classify_run. cbn [fst]. intros H.
  destruct (similarity_table encode cosine_similarity text) as [sims|e]
    eqn:E; cbn [and_then] in H; [|discriminate].
  destruct (select_table _ _ _ _ E) as (x & rest & Hx & Hsel).
  rewrite Hsel in H. destruct (Qlt_bool _ threshold); [discriminate|].
  injection H as <-.
  rewrite <- (similarity_table_keys _ _ _ _ E), Hx.
  apply (in_map fst), max_loop_In.
Qed.


(** C5, as amended. [classify] keeps no embeddings between calls: when
    the encoder succeeds on the text and on the six descriptions, every
    call hands it the text and then each description again, so that [n]
    calls in a row embed every description [n] times. *)
Theorem descriptions_embedded_every_call :
  forall (embedding : Type) (encode : string -> result embedding)
         (cosine_similarity : embedding -> embedding -> result Q)
         (n : nat) (text : string) (departments : list string)
         (log : list string),
    (forall t, In t (text :: values department_descriptions) ->
               exists v, encode t = Return v) ->
    after_calls encode cosine_similarity n text departments log
    = log ++ concat (repeat (text :: values department_descriptions) n).
Proof.
  intros embedding encode cosine_similarity n text departments log H.
  revert log. induction n as [|n IH]; intros log.
  - cbn. now rewrite app_nil_r.
  - cbn [after_calls repeat concat]. rewrite IH, classify_run. cbn [snd].
    rewrite (encoder_calls_all encode text H), <- app_assoc. reflexivity.
Qed.

(** C6. When the encoder fails on the text or on a description,
    [classify] raises an [HTTPException] with status 500 whose detail
    carries the message of the encoder's exception; this is not the
    return value [None] that stands for undecided. *)
Theorem embedding_failure_raises :
  forall (embedding : Type) (encode : string -> result embedding)
         (cosine_similarity : embedding -> embedding -> result Q)
         (text : string) (departments : list string) (log : list string),
    (exists t, In t (text :: values department_descriptions)
               /\ exists e, encode t = Raise e) ->
    exists t e,
      In t (text :: values department_descriptions)
      /\ encode t = Raise e
      /\ fst (HuggingFaceClassifier.classify encode cosine_similarity text
                departments log)
         = Raise (HTTPException 500
                    ("Ошибка при классификации обращения: " ++ str e))
      /\ fst (HuggingFaceClassifier.classify encode cosine_similarity text
                departments log) <> Return None.
Proof.
  intros embedding encode cosine_similarity text departments log H.
  destruct (similarity_table_raises encode cosine_similarity text H)
    as (t & e & Hin & He & Ht).
  exists t, e. rewrite classify_run. cbn [fst]. rewrite Ht. cbn [and_then].
  repeat split; [exact Hin | exact He | discriminate].
Qed.

(** C10. The result of [classify], and the calls it makes, are the same
    for any two department lists: the argument is never read, and the
    catalog inside the function has six departments. *)
Theorem departments_argument_ignored :
  forall (embedding : Type) (encode : string -> result embedding)
         (cosine_similarity : embedding -> embedding -> result Q)
         (text : string) (departments1 departments2 : list string)
         (log : list string),
    HuggingFaceClassifier.classify encode cosine_similarity text
      departments1 log
    = HuggingFaceClassifier.classify encode cosine_similarity text
        departments2 log
    /\ length department_descriptions = 6%nat.
Proof.
  intros. split; reflexivity.
Qed.

(** ** The remote backends *)

(** The exception of [raise_for_status] is a [RequestException]. *)
Lemma raise_for_status_class (r : response) (e : exn) :
  raise_for_status r = Raise e -> is_RequestException e = true.
Proof.
  unfold raise_for_status.
  destruct ((400 <=? status_code r)%Z && (status_code r <? 500)%Z);
    [now intros [= <-]|].
  destruct ((500 <=? status_code r)%Z && (status_code r <? 600)%Z);
    [now intros [= <-] | discriminate].
Qed.

(** [raise_for_status] raises on the statuses 400 to 599, and only there. *)
Lemma raise_for_status_raises (r : response) :
  (400 <= status_code r < 600)%Z <-> exists e, raise_for_status r = Raise e.
Proof.
  unfold raise_for_status.
  destruct ((400 <=? status_code r)%Z && (status_code r <? 500)%Z) eqn:E4.
  - apply andb_prop in E4 as [H1 H2].
    apply Z.leb_le in H1. apply Z.ltb_lt in H2.
    split; [eauto | lia].
  - destruct ((500 <=? status_code r)%Z && (status_code r <? 600)%Z) eqn:E5.
    + apply andb_prop in E5 as [H1 H2].
      apply Z.leb_le in H1. apply Z.ltb_lt in H2.
      split; [eauto | lia].
    + split; [|intros [e He]; discriminate].
      intros [Hlo Hhi]. exfalso.
      apply andb_false_iff in E4, E5.
      rewrite Z.leb_gt, Z.ltb_ge in E4, E5. lia.
Qed.

(** Every call posts exactly one request, whatever comes of it. *)
Lemma one_request (network : sent -> request -> result response)
    (m : model) (text : string) (departments : list string) (log : sent) :
  snd (classify network m text departments log)
  = log ++ [request_of m text departments].
Proof.
  destruct m as [self|self|self]; cbn [classify request_of]; unfold_remote;
    match goal with
    | |- context [network log ?req] => destruct (network log req) as [r|e]
    end;
    cbn [find fst snd Exception]; repeat step_remote; reflexivity.
Qed.

(** C7, as amended. For each of the three remote backends, when
    [requests.post] raises a [RequestException], or the reply has a 4xx
    or 5xx status, [classify] raises an [HTTPException] with status 500
    whose detail carries the message of the upstream exception; it
    returns no value, and it has posted one request only. *)
Theorem upstream_failure_surfaces :
  forall (network : sent -> request -> result response) (m : model)
         (text : string) (departments : list string) (log : sent)
         (e : exn),
    upstream_failure (network log (request_of m text departments)) e ->
    classify network m text departments log
    = (Raise (HTTPException 500 (request_error_prefix m ++ str e)),
       log ++ [request_of m text departments]).
Proof.
  intros network m text departments log e H.
  assert (Hcls : is_RequestException e = true).
  { destruct H as [[_ H]|(r & _ & _ & H)];
      [exact H | exact (raise_for_status_class r e H)]. }
  destruct m as [self|self|self];
    cbn [classify request_of request_error_prefix] in *; unfold_remote;
    destruct H as [[-> _]|(r & -> & _ & Hr)];
    try rewrite Hr; cbn [find fst snd Exception]; try rewrite Hcls;
    reflexivity.
Qed.

(** What a remote backend returns is the answer found in the reply. *)
Lemma remote_answer (network : sent -> request -> result response)
    (m : model) (text : string) (departments : list string) (log : sent)
    (s : string) :
  fst (classify network m text departments log) = Return s ->
  exists r body,
    network log (request_of m text departments) = Return r
    /\ raise_for_status r = Return tt
    /\ resp_json r = Return body
    /\ answer_of m body = Return s.
Proof.
  destruct m as [self|self|self];
    cbn [classify request_of answer_of]; unfold_remote;
    match goal with
    | |- context [network log ?req] =>
        destruct (network log req) as [r|e] eqn:Er
    end;
    cbn [find fst snd Exception]; repeat step_remote;
    try discriminate; intros [= <-]; eauto 10.
Qed.

(** C2, as amended. A department decided by the embedding classifier is
    one of the six names of the catalog inside [classify], whatever list
    was passed in. A remote backend returns the stripped answer text of
    the reply as it is, without looking it up in the list. *)
Theorem decided_department_origin :
  (forall (embedding : Type) (encode : string -> result embedding)
          (cosine_similarity : embedding -> embedding -> result Q)
          (text : string) (departments : list string) (log : list string)
          (d : string),
      fst (HuggingFaceClassifier.classify encode cosine_similarity text
             departments log) = Return (Some d) ->
      In d (keys department_descriptions))
  /\ (forall (network : sent -> request -> result response) (m : model)
             (text : string) (departments : list string) (log : sent)
             (s : string),
         fst (classify network m text departments log) = Return s ->
         exists r body,
           network log (request_of m text departments) = Return r
           /\ resp_json r = Return body
           /\ answer_of m body = Return s).
Proof.
  split.
  - intros. eapply decided_in_catalog; eassumption.
  - intros network m text departments log s H.
    destruct (remote_answer _ _ _ _ _ _ H) as (r & body & Hr & _ & Hb & Ha).
    now exists r, body.
Qed.

(** ** The factory *)

(** C8, as amended. [get_model] returns an instance for each of the three
    names deepseek, qwen and yandexgpt, and raises [ValueError] for every
    other name; it makes no request, being a function of its arguments. *)
Theorem get_model_names :
  forall (model_name api_key : string),
    get_model "deepseek" api_key
    = Return (DeepSeek (DeepSeekClassifier.init api_key))
    /\ get_model "qwen" api_key = Return (Qwen (QwenModel.init api_key))
    /\ get_model "yandexgpt" api_key
       = Return (YandexGPT (YandexGPTModel.init api_key))
    /\ (model_name <> "deepseek" -> model_name <> "qwen" ->
        model_name <> "yandexgpt" ->
        get_model model_name api_key
        = Raise (Exn ValueError ("Неподдерживаемая модель: " ++ model_name))).
Proof.
  intros model_name api_key. repeat split.
  intros H1 H2 H3. unfold get_model, models. cbn [dict_contains].
  destruct (String.eqb_spec model_name "deepseek"); [contradiction|].
  destruct (String.eqb_spec model_name "qwen"); [contradiction|].
  destruct (String.eqb_spec model_name "yandexgpt"); [contradiction|].
  reflexivity.
Qed.

(** ** The claims at concrete inputs *)

(** Bounds on every score of a table, from a test. *)
Lemma scores_le (l : dict Q) (b : Q) :
  forallb (fun x => Qle_bool (snd x) b) l = true ->
  forall d q, In (d, q) l -> q <= b.
Proof.
  intros H d q Hin. rewrite forallb_forall in H.
  apply Qle_bool_iff. exact (H (d, q) Hin).
Qed.


(** C1 at the constant encoder: every department scores 1, the greatest
    score is 1, and the first department is returned. *)
Lemma classify_threshold_witness :
  exists d q,
    In (d, q) (map (fun k => (k, 1)) (keys department_descriptions))
    /\ is_max_score q (map (fun k => (k, 1)) (keys department_descriptions))
    /\ (fst (HuggingFaceClassifier.classify Fake.constant_encode
               Fake.basis_cosine Fake.appeal [] []) = Return None
        <-> q < threshold)
    /\ (fst (HuggingFaceClassifier.classify Fake.constant_encode
               Fake.basis_cosine Fake.appeal [] []) = Return (Some d)
        <-> ~ q < threshold).
Proof.
  apply (classify_threshold nat Fake.constant_encode Fake.basis_cosine
           Fake.appeal [] []).
  vm_compute. reflexivity.
Defined.

(** C2 fails: with the list of two departments passed in, the embedding
    classifier decides on a third; and a remote backend returns a sentence
    that is no department at all. *)
Lemma decided_outside_passed_list :
  fst (HuggingFaceClassifier.classify Fake.constant_encode Fake.basis_cosine
         Fake.appeal ["Департамент культуры"; "Департамент экологии"] [])
  = Return (Some "Департамент транспорта")
  /\ ~ In "Департамент транспорта"
          ["Департамент культуры"; "Департамент экологии"]
  /\ fst (classify Fake.chatty (Qwen (QwenModel.init "key")) Fake.appeal
            ["Департамент культуры"; "Департамент экологии"] [])
     = Return "Скорее всего, транспорт."
  /\ ~ In "Скорее всего, транспорт."
          ["Департамент культуры"; "Департамент экологии"].
Proof.
  split; [vm_compute; reflexivity|].
  split; [intros [H|[H|[]]]; discriminate|].
  split; [vm_compute; reflexivity|].
  intros [H|[H|[]]]; discriminate.
Qed.

(** C2, as amended, at the constant encoder and at the chatty remote
    side. *)
Lemma decided_department_origin_witness :
  In "Департамент транспорта" (keys department_descriptions)
  /\ exists r body,
       Fake.chatty [] (request_of (Qwen (QwenModel.init "key")) Fake.appeal
                         ["Департамент культуры"])
       = Return r
       /\ resp_json r = Return body
       /\ answer_of (Qwen (QwenModel.init "key")) body
          = Return "Скорее всего, транспорт.".
Proof.
  split.
  - apply (proj1 decided_department_origin nat Fake.constant_encode
             Fake.basis_cosine Fake.appeal [] []).
    vm_compute. reflexivity.
  - apply (proj2 decided_department_origin Fake.chatty
             (Qwen (QwenModel.init "key")) Fake.appeal
             ["Департамент культуры"] []).
    vm_compute. reflexivity.
Defined.

(** C3 fails: for the gibberish appeal all six departments share the
    greatest score, 0, and [classify] returns no department. *)
Lemma tie_below_threshold_undecided :
  similarity_table Fake.catalog_encode Fake.basis_cosine Fake.gibberish
  = Return (map (fun k => (k, 0)) (keys department_descriptions))
  /\ fst (HuggingFaceClassifier.classify Fake.catalog_encode
            Fake.basis_cosine Fake.gibberish [] [])
     = Return None.
Proof.
  split; vm_compute; reflexivity.
Qed.

(** C3, as amended, at the constant encoder: six departments tie at 1 and
    the first of them is returned, twice. *)
Lemma tie_first_listed_witness :
  fst (HuggingFaceClassifier.classify Fake.constant_encode Fake.basis_cosine
         Fake.appeal [] []) = Return (Some "Департамент транспорта")
  /\ fst (HuggingFaceClassifier.classify Fake.constant_encode
            Fake.basis_cosine Fake.appeal []
            (snd (HuggingFaceClassifier.classify Fake.constant_encode
                    Fake.basis_cosine Fake.appeal [] [])))
     = Return (Some "Департамент транспорта").
Proof.
  apply (tie_first_listed nat Fake.constant_encode Fake.basis_cosine
           Fake.appeal [] []
           (map (fun k => (k, 1)) (keys department_descriptions))
           []
           (map (fun k => (k, 1)) (tl (keys department_descriptions)))
           "Департамент транспорта" 1).
  - vm_compute. reflexivity.
  - reflexivity.
  - intros d' q' [].
  - apply scores_le. vm_compute. reflexivity.
  - discriminate.
Defined.



(** C5 fails: after two calls in a row the description of the first
    department has been handed to the encoder twice. *)
Lemma description_embedded_twice :
  length
    (filter (String.eqb (snd (nth 0 department_descriptions ("", ""))))
       (after_calls Fake.constant_encode Fake.basis_cosine 2 Fake.appeal
          [] []))
  = 2%nat.
Proof.
  vm_compute. reflexivity.
Qed.

(** C5, as amended, at the constant encoder and two calls. *)
Lemma descriptions_embedded_every_call_witness :
  after_calls Fake.constant_encode Fake.basis_cosine 2 Fake.appeal [] []
  = [] ++ concat (repeat (Fake.appeal :: values department_descriptions) 2).
Proof.
  apply (descriptions_embedded_every_call nat Fake.constant_encode
           Fake.basis_cosine 2 Fake.appeal [] []).
  intros t _. exists 0%nat. reflexivity.
Defined.

(** C6 at the broken encoder. *)
Lemma embedding_failure_raises_witness :
  exists t e,
    In t (Fake.appeal :: values department_descriptions)
    /\ Fake.broken_encode t = Raise e
    /\ fst (HuggingFaceClassifier.classify Fake.broken_encode
              Fake.basis_cosine Fake.appeal [] [])
       = Raise (HTTPException 500
                  ("Ошибка при классификации обращения: " ++ str e))
    /\ fst (HuggingFaceClassifier.classify Fake.broken_encode
              Fake.basis_cosine Fake.appeal [] []) <> Return None.
Proof.
  apply (embedding_failure_raises nat Fake.broken_encode Fake.basis_cosine
           Fake.appeal [] []).
  exists Fake.appeal. split; [now left|]. eexists. reflexivity.
Defined.

(** C7 fails: a reply with status 300 and a body of the expected shape is
    not an error for [DeepSeekClassifier.classify], which returns its
    answer. *)
Lemma status_300_returns_answer :
  exists r,
    Fake.multiple_choices []
      (request_of (DeepSeek (DeepSeekClassifier.init "key")) Fake.appeal
         ["Департамент культуры"])
    = Return r
    /\ status_code r = 300%Z
    /\ fst (classify Fake.multiple_choices
              (DeepSeek (DeepSeekClassifier.init "key")) Fake.appeal
              ["Департамент культуры"] [])
       = Return "Департамент культуры".
Proof.
  eexists. split; [reflexivity|]. split; [reflexivity|].
  vm_compute. reflexivity.
Qed.

(** C7, as amended, at a remote side that answers 503. *)
Lemma upstream_failure_surfaces_witness :
  classify Fake.unavailable (Qwen (QwenModel.init "key")) Fake.appeal
    ["Департамент культуры"] []
  = (Raise
       (HTTPException 500
          (request_error_prefix (Qwen (QwenModel.init "key"))
           ++ str (Exn HTTPError
                     ("503 Server Error: Service Unavailable for url: "
                      ++ QwenModel.url)))),
     [] ++ [request_of (Qwen (QwenModel.init "key")) Fake.appeal
              ["Департамент культуры"]]).
Proof.
  apply (upstream_failure_surfaces Fake.unavailable
           (Qwen (QwenModel.init "key")) Fake.appeal
           ["Департамент культуры"] []).
  right. eexists. split; [reflexivity|].
  split; [cbn; lia | vm_compute; reflexivity].
Defined.

(** C8 fails: the factory knows no backend named embedding. *)
Lemma get_model_embedding_unsupported :
  get_model "embedding" ""
  = Raise (Exn ValueError "Неподдерживаемая модель: embedding").
Proof.
  vm_compute. reflexivity.
Qed.

(** C8, as amended, at a name outside the table. *)
Lemma get_model_names_witness :
  get_model "huggingface" "key"
  = Raise (Exn ValueError ("Неподдерживаемая модель: " ++ "huggingface")).
Proof.
  destruct (get_model_names "huggingface" "key") as (_ & _ & _ & H).
  apply H; discriminate.
Defined.

(** * Further properties of the code *)

(** ** The embedding classifier: exceptions and the order of work *)

(** A failure of [traverse] is a failure of its function on a value. *)
Lemma traverse_raise_inv {A B : Type} (g : A -> result B) (items : dict A)
    (e : exn) :
  traverse g items = Raise e ->
  exists a, In a (values items) /\ g a = Raise e.
Proof.
  induction items as [|[k a] items IH]; cbn [traverse]; [discriminate|].
  destruct (g a) as [b|e'] eqn:Ea; cbn [and_then].
  - destruct (traverse g items) as [bs|e'] eqn:Et; cbn [and_then];
      [discriminate|].
    intros [= ->]. destruct (IH eq_refl) as (a' & Hin & Ha').
    exists a'. split; [now right | exact Ha'].
  - intros [= ->]. exists a. split; [now left | exact Ea].
Qed.

(** Up to the first value it fails on, [traverse] applies its function to
    the values in order. *)
Lemma traverse_stops {A B : Type} (g : A -> result B) (items : dict A)
    (pre post : list A) (a : A) (e : exn) :
  values items = pre ++ a :: post ->
  (forall x, In x pre -> exists b, g x = Return b) ->
  g a = Raise e ->
  traverse g items = Raise e /\ attempted g items = pre ++ [a].
Proof.
  revert pre. induction items as [|[k x] items IH]; intros pre Hv Hpre Ha.
  - destruct pre; discriminate.
  - destruct pre as [|p pre]; cbn in Hv; injection Hv as -> Hv.
    + cbn. now rewrite Ha.
    + destruct (Hpre p) as [b Hb]; [now left|].
      destruct (IH pre Hv) as [Ht Hat]; [|exact Ha|].
      { intros y Hy. apply Hpre. now right. }
      cbn. rewrite Hb. cbn [and_then]. rewrite Ht, Hat. now split.
Qed.

(** Every exception of [classify] is one it has wrapped. *)
Lemma classify_raises_cases {embedding : Type}
    (encode : string -> result embedding)
    (cosine_similarity : embedding -> embedding -> result Q)
    (text : string) (departments : list string) (log : list string)
    (e : exn) :
  fst (HuggingFaceClassifier.classify encode cosine_similarity text
         departments log) = Raise e ->
  exists e0, e = classification_error e0.
Proof.
  rewrite classify_run. cbn [fst].
  destruct (and_then _ select) as [r|e0]; [discriminate|].
  intros [= <-]. now exists e0.
Qed.

(** X1. Whatever goes wrong inside [HuggingFaceClassifier.classify], in the
    encoder or in the scorer, the caller sees an [HTTPException] with status
    500 whose detail is the fixed prefix followed by the message of the
    original exception; no other exception leaves the method. *)
Theorem classify_raises_only_http_500 :
  forall (embedding : Type) (encode : string -> result embedding)
         (cosine_similarity : embedding -> embedding -> result Q)
         (text : string) (departments : list string) (log : list string)
         (e : exn),
    fst (HuggingFaceClassifier.classify encode cosine_similarity text
           departments log) = Raise e ->
    exists e0,
      e = HTTPException 500
            ("Ошибка при классификации обращения: " ++ str e0)
      /\ ((exists t, In t (text :: values department_descriptions)
                     /\ encode t = Raise e0)
          \/ (exists a b, cosine_similarity a b = Raise e0)).
Proof.
  intros embedding encode cosine_similarity text departments log e.
  rewrite classify_run. cbn [fst].
  destruct (similarity_table encode cosine_similarity text) as [sims|e0]
    eqn:E; cbn [and_then].
  - destruct (select_table _ _ _ _ E) as (x & rest & _ & ->). discriminate.
  - intros [= <-]. exists e0. split; [reflexivity|].
    unfold similarity_table in E.
    destruct (encode text) as [v|e1] eqn:Etext; cbn [and_then] in E.
    + destruct (traverse encode department_descriptions) as [embs|e1]
        eqn:Eembs; cbn [and_then] in E.
      * right. apply traverse_raise_inv in E as (a & _ & Ha). eauto.
      * injection E as ->.
        apply traverse_raise_inv in Eembs as (a & Hin & Ha).
        left. exists a. split; [now right | exact Ha].
    + injection E as ->. left. exists text. split; [now left | exact Etext].
Qed.

(** X2. [classify] embeds the text first and then the descriptions in
    catalog order, and stops at the first one the encoder fails on: the
    texts after it are never handed to the encoder, and the call raises
    the wrapped exception of that failure. *)
Theorem classify_stops_at_first_failure :
  forall (embedding : Type) (encode : string -> result embedding)
         (cosine_similarity : embedding -> embedding -> result Q)
         (text : string) (departments : list string) (log : list string)
         (pre post : list string) (t : string) (e : exn),
    text :: values department_descriptions = pre ++ t :: post ->
    (forall x, In x pre -> exists v, encode x = Return v) ->
    encode t = Raise e ->
    HuggingFaceClassifier.classify encode cosine_similarity text departments
      log
    = (Raise (HTTPException 500
                ("Ошибка при классификации обращения: " ++ str e)),
       log ++ pre ++ [t]).
Proof.
  intros embedding encode cosine_similarity text departments log pre post t
    e Hsplit Hpre Ht.
  rewrite classify_run. unfold similarity_table, encoder_calls.
  destruct pre as [|p pre]; cbn in Hsplit; injection Hsplit as <- Hsplit.
  - rewrite Ht. reflexivity.
  - destruct (Hpre text) as [v Hv]; [now left|]. rewrite Hv.
    destruct (traverse_stops encode department_descriptions pre post t e
                Hsplit) as [Htr Hat]; [|exact Ht|].
    { intros y Hy. apply Hpre. now right. }
    cbn [and_then]. rewrite Htr, Hat. reflexivity.
Qed.

(** ** Loading the encoder *)


(** ** The service *)

(** The names the service lists are the keys of the classifier's catalog,
    in the same order. *)
Lemma catalog_is_DEPARTMENTS : keys department_descriptions = Main.DEPARTMENTS.
Proof. vm_compute. reflexivity. Qed.

Lemma DEPARTMENTS_not_empty_name (d : string) :
  In d Main.DEPARTMENTS -> String.eqb d "" = false.
Proof.
  intros H. apply String.eqb_neq. intros ->.
  revert H. vm_compute. intuition discriminate.
Qed.

(** What [process_appeal] makes of each outcome of [classify]. *)
Lemma process_appeal_run {embedding : Type}
    (encode : string -> result embedding)
    (cosine_similarity : embedding -> embedding -> result Q)
    (appeal : Main.Appeal) (log : list string) :
  Main.process_appeal encode cosine_similarity appeal log
  = (match fst (HuggingFaceClassifier.classify encode cosine_similarity
                  (Main.text appeal) Main.DEPARTMENTS log) with
     | Return (Some d) =>
         Return [ ("status", "success"); ("department", d);
                  ("message", ("Обращение направлено в " ++ d)%string) ]
     | Return None => Raise (HTTPException 400 undecided_detail)
     | Raise e => Raise e
     end,
     snd (HuggingFaceClassifier.classify encode cosine_similarity
            (Main.text appeal) Main.DEPARTMENTS log)).
Proof.
  unfold Main.process_appeal, try_except, bind.
  destruct (HuggingFaceClassifier.classify encode cosine_similarity
              (Main.text appeal) Main.DEPARTMENTS log) as [[[d|]|e] log']
    eqn:E; cbn [fst snd].
  - assert (Hd : In d Main.DEPARTMENTS).
    { rewrite <- catalog_is_DEPARTMENTS.
      apply (decided_in_catalog encode cosine_similarity (Main.text appeal)
               Main.DEPARTMENTS log). now rewrite E. }
    rewrite (DEPARTMENTS_not_empty_name d Hd). reflexivity.
  - reflexivity.
  - pose proof (classify_run encode cosine_similarity (Main.text appeal)
                  Main.DEPARTMENTS log) as Hrun.
    rewrite E in Hrun. injection Hrun as He _.
    destruct (and_then _ select) in He; [discriminate|].
    injection He as ->. reflexivity.
Qed.

(** X4. An appeal is answered with success only for a department of the
    list that [get_departments] serves, and the message names that same
    department. *)
Theorem process_appeal_success :
  forall (embedding : Type) (encode : string -> result embedding)
         (cosine_similarity : embedding -> embedding -> result Q)
         (appeal : Main.Appeal) (log : list string) (answer : dict string),
    fst (Main.process_appeal encode cosine_similarity appeal log)
    = Return answer ->
    exists d,
      In d Main.DEPARTMENTS
      /\ answer = [ ("status", "success"); ("department", d);
                    ("message", ("Обращение направлено в " ++ d)%string) ].
Proof.
  intros embedding encode cosine_similarity appeal log answer.
  rewrite process_appeal_run. cbn [fst].
  destruct (fst (HuggingFaceClassifier.classify encode cosine_similarity
                   (Main.text appeal) Main.DEPARTMENTS log))
    as [[d|]|e] eqn:E; try discriminate.
  intros [= <-]. exists d. split; [|reflexivity].
  rewrite <- catalog_is_DEPARTMENTS.
  exact (decided_in_catalog encode cosine_similarity _ _ _ _ E).
Qed.

(** X5. [process_appeal] fails in two ways only: with status 400 and the
    fixed hint to rephrase, when no department is found, or with status
    500 and the detail made by the classifier. The handler's own detail
    for an internal error is never used: its last [except] clause cannot
    be reached. *)
Theorem process_appeal_errors :
  forall (embedding : Type) (encode : string -> result embedding)
         (cosine_similarity : embedding -> embedding -> result Q)
         (appeal : Main.Appeal) (log : list string) (e : exn),
    fst (Main.process_appeal encode cosine_similarity appeal log) = Raise e ->
    (e = HTTPException 400
           "Не удалось определить подходящий департамент. Попробуйте переформулировать обращение."
     \/ exists e0,
          e = HTTPException 500
                ("Ошибка при классификации обращения: " ++ str e0))
    /\ forall x, e <> HTTPException 500 ("Внутренняя ошибка сервера: " ++ x).
Proof.
  intros embedding encode cosine_similarity appeal log e.
  rewrite process_appeal_run. cbn [fst].
  destruct (fst (HuggingFaceClassifier.classify encode cosine_similarity
                   (Main.text appeal) Main.DEPARTMENTS log))
    as [[d|]|e'] eqn:E; try discriminate; intros [= <-].
  - split; [now left | discriminate].
  - apply classify_raises_cases in E as [e0 ->].
    split; [right; now exists e0|].
    intros x [=].
Qed.

(** X6. When the similarities of the text are computed, the appeal is
    answered with the department of greatest score when that score is at
    least the threshold, and rejected with status 400 when it is below. *)
Theorem process_appeal_by_score :
  forall (embedding : Type) (encode : string -> result embedding)
         (cosine_similarity : embedding -> embedding -> result Q)
         (appeal : Main.Appeal) (log : list string)
         (sims pre post : dict Q) (d : string) (q : Q),
    similarity_table encode cosine_similarity (Main.text appeal)
    = Return sims ->
    sims = pre ++ (d, q) :: post ->
    (forall d' q', In (d', q') pre -> q' < q) ->
    (forall d' q', In (d', q') post -> q' <= q) ->
    (threshold <= q ->
     fst (Main.process_appeal encode cosine_similarity appeal log)
     = Return [ ("status", "success"); ("department", d);
                ("message", ("Обращение направлено в " ++ d)%string) ])
    /\ (q < threshold ->
        fst (Main.process_appeal encode cosine_similarity appeal log)
        = Raise (HTTPException 400 undecided_detail)).
Proof.
  intros embedding encode cosine_similarity appeal log sims pre post d q
    Hsims Hsplit Hpre Hpost.
  rewrite process_appeal_run. cbn [fst].
  rewrite (classify_first_max _ _ _ _ _ _ _ _ _ _ Hsims Hsplit Hpre Hpost).
  split; intros Hq.
  - apply Qlt_bool_false_iff in Hq. now rewrite Hq.
  - apply Qlt_bool_iff in Hq. now rewrite Hq.
Qed.

(** ** The remote backends: replies accepted and replies refused *)

Lemma getitem_Return (j : json) (k : string) (v : json) :
  getitem j k = Return v <-> exists o, j = JObject o /\ dict_get k o = Return v.
Proof.
  split.
  - destruct j; cbn; try discriminate. intros H. eauto.
  - intros (o & -> & H). exact H.
Qed.

Lemma getitem0_object (j v : json) (o : dict json) :
  getitem0 j = Return v -> v = JObject o ->
  exists rest, j = JArray (JObject o :: rest).
Proof.
  destruct j as [| | | |s|l|o']; cbn; try discriminate.
  - destruct (characters s); [discriminate|]. intros [= <-]. discriminate.
  - destruct l as [|x l]; [discriminate|]. intros [= ->] ->. eauto.
Qed.

Lemma strip_method_Return (j : json) (s : string) :
  strip_method j = Return s <-> exists t, j = JString t /\ s = strip t.
Proof.
  split.
  - destruct j; cbn; try discriminate. intros [= <-]. eauto.
  - intros (t & -> & ->). reflexivity.
Qed.

Lemma dict_get_error {V : Type} (k : string) (d : dict V) (e : exn) :
  dict_get k d = Raise e -> e = Exn KeyError (repr_key k).
Proof.
  induction d as [|[k' v] d IH]; cbn; [now intros [= <-]|].
  destruct (String.eqb k k'); [discriminate | exact IH].
Qed.

Lemma getitem_error (j : json) (k : string) (e : exn) :
  getitem j k = Raise e -> is_lookup_error e = true.
Proof.
  destruct j; cbn; try (now intros [= <-]).
  intros H. apply dict_get_error in H. now subst.
Qed.

Lemma getitem0_error (j : json) (e : exn) :
  getitem0 j = Raise e -> is_lookup_error e = true.
Proof.
  destruct j as [| | | |s|l|o]; cbn; try (now intros [= <-]).
  - destruct (characters s); [now intros [= <-] | discriminate].
  - destruct l; [now intros [= <-] | discriminate].
Qed.

Lemma strip_method_error (j : json) (e : exn) :
  strip_method j = Raise e -> is_lookup_error e = true.
Proof. destruct j; cbn; now intros [= <-]. Qed.

Lemma and_then_error {A B : Type} (P : exn -> Prop) (r : result A)
    (k : A -> result B) (e : exn) :
  (forall e', r = Raise e' -> P e') ->
  (forall a e', k a = Raise e' -> P e') ->
  and_then r k = Raise e -> P e.
Proof.
  intros Hr Hk. destruct r as [a|e']; cbn; [apply Hk|].
  intros [= <-]. now apply Hr.
Qed.

Lemma answer_of_error (m : model) (body : json) (e : exn) :
  answer_of m body = Raise e -> is_lookup_error e = true.
Proof.
  destruct m; cbn [answer_of];
    unfold DeepSeekClassifier.answer, QwenModel.answer,
      YandexGPTModel.answer;
    repeat (apply (and_then_error (fun e => is_lookup_error e = true));
            cbv beta;
            [intros ?; first [apply getitem_error | apply getitem0_error]
            | intros ? ?]);
    first [apply getitem_error | apply strip_method_error].
Qed.

(** X7. A remote backend returns a value exactly when the reply passes
    [raise_for_status] (its status is not 4xx or 5xx), its body parses as
    JSON, and the answer is found at the backend's path in the body; the
    value returned is that answer. *)
Theorem remote_returns_iff :
  forall (network : sent -> request -> result response) (m : model)
         (text : string) (departments : list string) (log : sent)
         (s : string),
    fst (classify network m text departments log) = Return s
    <-> exists r body,
          network log (request_of m text departments) = Return r
          /\ ~ (400 <= status_code r < 600)%Z
          /\ resp_json r = Return body
          /\ answer_of m body = Return s.
Proof.
  intros network m text departments log s. split.
  - intros H.
    destruct (remote_answer _ _ _ _ _ _ H) as (r & body & Hr & Hs & Hb & Ha).
    exists r, body. repeat split; try assumption.
    intros Hrange. apply raise_for_status_raises in Hrange as [e He].
    congruence.
  - intros (r & body & Hr & Hs & Hb & Ha).
    assert (Hok : raise_for_status r = Return tt).
    { destruct (raise_for_status r) as [[]|e] eqn:E; [reflexivity|].
      exfalso. apply Hs. apply raise_for_status_raises. eauto. }
    destruct m as [self|self|self]; cbn [classify request_of answer_of] in *;
      unfold_remote; rewrite Hr; cbn [fst snd]; rewrite Hok, Hb;
      cbn [fst snd]; rewrite Ha; reflexivity.
Qed.

(** Reading [body[k]] then going on succeeds only on an object with the
    key. *)
Lemma and_then_getitem (body : json) (k : string) (f : json -> result string)
    (s : string) :
  and_then (getitem body k) f = Return s <->
  exists o v, body = JObject o /\ dict_get k o = Return v /\ f v = Return s.
Proof.
  split.
  - destruct (getitem body k) as [v|e] eqn:E; cbn; [|discriminate].
    apply getitem_Return in E as (o & -> & Hv). eauto.
  - intros (o & v & -> & Hv & Hf). cbn. now rewrite Hv.
Qed.

(** Reading [j[0][k]] then going on succeeds only on a list that begins
    with an object with the key. *)
Lemma and_then_getitem0 (j : json) (k : string) (f : json -> result string)
    (s : string) :
  and_then (getitem0 j) (fun x => and_then (getitem x k) f) = Return s <->
  exists o rest v,
    j = JArray (JObject o :: rest) /\ dict_get k o = Return v
    /\ f v = Return s.
Proof.
  split.
  - destruct (getitem0 j) as [x|e] eqn:E; cbn [and_then]; [|discriminate].
    intros H. apply and_then_getitem in H as (o & v & -> & Hv & Hf).
    destruct (getitem0_object _ _ o E eq_refl) as [rest ->]. eauto 6.
  - intros (o & rest & v & -> & Hv & Hf). cbn. now rewrite Hv.
Qed.

(** X8. The bodies each backend accepts. DeepSeek:
    [{"choices": [{"message": {"content": <string>}}, ...]}]; Qwen:
    [{"output": {"text": <string>}}]; YandexGPT:
    [{"result": {"alternatives": [{"message": {"text": <string>}}, ...]}}];
    other keys may be present. On such a body the answer is the string
    with the white space around it removed, and on every other body the
    answer path raises. *)
Theorem answer_shapes :
  forall (body : json) (s : string),
    (DeepSeekClassifier.answer body = Return s
     <-> exists o choice rest message content,
           body = JObject o
           /\ dict_get "choices" o = Return (JArray (JObject choice :: rest))
           /\ dict_get "message" choice = Return (JObject message)
           /\ dict_get "content" message = Return (JString content)
           /\ s = strip content)
    /\ (QwenModel.answer body = Return s
        <-> exists o output content,
              body = JObject o
              /\ dict_get "output" o = Return (JObject output)
              /\ dict_get "text" output = Return (JString content)
              /\ s = strip content)
    /\ (YandexGPTModel.answer body = Return s
        <-> exists o res alternative rest message content,
              body = JObject o
              /\ dict_get "result" o = Return (JObject res)
              /\ dict_get "alternatives" res
                 = Return (JArray (JObject alternative :: rest))
              /\ dict_get "message" alternative = Return (JObject message)
              /\ dict_get "text" message = Return (JString content)
              /\ s = strip content).
Proof.
  intros body s.
  unfold DeepSeekClassifier.answer, QwenModel.answer, YandexGPTModel.answer.
  split; [|split].
  - rewrite and_then_getitem. split.
    + intros (o & v & -> & Hv & H).
      apply and_then_getitem0 in H as (c & rest & v' & -> & Hm & H).
      apply and_then_getitem in H as (mm & w & -> & Hc & H).
      apply strip_method_Return in H as (t & -> & ->). eauto 10.
    + intros (o & c & rest & mm & t & -> & Hv & Hm & Hc & ->).
      exists o, (JArray (JObject c :: rest)). repeat split; [exact Hv|].
      cbn. rewrite Hm. cbn. now rewrite Hc.
  - rewrite and_then_getitem. split.
    + intros (o & v & -> & Hv & H).
      apply and_then_getitem in H as (out & w & -> & Hc & H).
      apply strip_method_Return in H as (t & -> & ->). eauto 10.
    + intros (o & out & t & -> & Hv & Hc & ->).
      exists o, (JObject out). repeat split; [exact Hv|].
      cbn. now rewrite Hc.
  - rewrite and_then_getitem. split.
    + intros (o & v & -> & Hv & H).
      apply and_then_getitem in H as (res & alts & -> & Ha & H).
      apply and_then_getitem0 in H as (c & rest & v' & -> & Hm & H).
      apply and_then_getitem in H as (mm & w & -> & Hc & H).
      apply strip_method_Return in H as (t & -> & ->). eauto 12.
    + intros (o & res & c & rest & mm & t & -> & Hv & Ha & Hm & Hc & ->).
      exists o, (JObject res). repeat split; [exact Hv|].
      cbn. rewrite Ha. cbn. rewrite Hm. cbn. now rewrite Hc.
Qed.


(** X10. [DeepSeekClassifier] wraps a missing key or index of the body
    ([KeyError], [IndexError]) into an [HTTPException] with status 500 and
    the detail for a malformed reply, but a body whose parts have the
    wrong type ([TypeError], or [AttributeError] when the content is not a
    string) leaves the method as the bare Python exception. *)
Theorem deepseek_malformed_reply :
  forall (network : sent -> request -> result response)
         (self : DeepSeekClassifier.t) (text : string)
         (departments : list string) (log : sent) (r : response)
         (body : json) (e : exn),
    network log (request_of (DeepSeek self) text departments) = Return r ->
    ~ (400 <= status_code r < 600)%Z ->
    resp_json r = Return body ->
    DeepSeekClassifier.answer body = Raise e ->
    is_lookup_error e = true
    /\ DeepSeekClassifier.classify network self text departments log
       = (Raise (if is_KeyError_or_IndexError e
                 then HTTPException 500
                        ("Ошибка при обработке ответа от DeepSeek: "
                         ++ str e)
                 else e),
          log ++ [request_of (DeepSeek self) text departments]).
Proof.
  intros network self text departments log r body e Hr Hs Hb Ha.
  pose proof (answer_of_error (DeepSeek self) body e Ha) as Hcls.
  split; [exact Hcls|].
  assert (Hok : raise_for_status r = Return tt).
  { destruct (raise_for_status r) as [[]|e'] eqn:E; [reflexivity|].
    exfalso. apply Hs. apply raise_for_status_raises. eauto. }
  cbn [request_of] in *. unfold_remote. rewrite Hr. cbn [fst snd].
  rewrite Hok, Hb. cbn [fst snd]. rewrite Ha. cbn [find fst snd].
  destruct e as [[] msg|code detail]; try discriminate; reflexivity.
Qed.

(** The instance the factory makes for a name. *)
Lemma get_model_inv (model_name api_key : string) (m : model) :
  get_model model_name api_key = Return m ->
  (model_name = "deepseek" /\ m = DeepSeek (DeepSeekClassifier.init api_key))
  \/ (model_name = "qwen" /\ m = Qwen (QwenModel.init api_key))
  \/ (model_name = "yandexgpt"
      /\ m = YandexGPT (YandexGPTModel.init api_key)).
Proof.
  unfold get_model, models. cbn [dict_contains dict_get].
  destruct (String.eqb_spec model_name "deepseek") as [->|_];
    [intros [= <-]; now left|].
  destruct (String.eqb_spec model_name "qwen") as [->|_];
    [intros [= <-]; right; now left|].
  destruct (String.eqb_spec model_name "yandexgpt") as [->|_];
    [intros [= <-]; right; now right | discriminate].
Qed.

(** X11. An instance made by [get_model] posts, on every call and
    whatever the reply, exactly one request: to the endpoint of its
    backend, as JSON, with the API key given to the factory in the
    [Authorization] header ([Bearer] for DeepSeek and Qwen, [Api-Key] for
    YandexGPT). *)
Theorem factory_instance_request :
  forall (network : sent -> request -> result response)
         (model_name api_key : string) (m : model) (text : string)
         (departments : list string) (log : sent),
    get_model model_name api_key = Return m ->
    exists req,
      snd (classify network m text departments log) = log ++ [req]
      /\ dict_get "Content-Type" (req_headers req)
         = Return "application/json"
      /\ dict_get "Authorization" (req_headers req)
         = Return ((if String.eqb model_name "yandexgpt"
                    then "Api-Key " else "Bearer ") ++ api_key)%string
      /\ req_url req
         = (if String.eqb model_name "deepseek"
            then "https://api.deepseek.com/v1/chat/completions"
            else if String.eqb model_name "qwen"
            then "https://dashscope.aliyuncs.com/api/v1/services/aigc/text-generation/generation"
            else "https://llm.api.cloud.yandex.net/foundationModels/v1/completion").
Proof.
  intros network model_name api_key m text departments log H.
  exists (request_of m text departments).
  split; [apply one_request|].
  apply get_model_inv in H as [[-> ->]|[[-> ->]|[-> ->]]];
    repeat split; reflexivity.
Qed.

(** ** The clients *)

(** Unfold a client function down to the reply of the service. *)
Ltac unfold_client :=
  unfold try_except, bind, requests_get, requests_post_json, call, lift, ret,
    raise, print, st, strftime_now.

Lemma good_reply_status (E : env) (c : http_call) (w : world) (body : json)
    (r : response) :
  service E (wire w) c = Return r ->
  good_reply E c w body <->
  raise_for_status r = Return tt /\ resp_json r = Return body.
Proof.
  intros Hr. split.
  - intros (r' & Hr' & Hs & Hb). assert (r' = r) as -> by congruence.
    split; [|exact Hb].
    destruct (raise_for_status r) as [[]|e] eqn:E'; [reflexivity|].
    exfalso. apply Hs. apply raise_for_status_raises. eauto.
  - intros [Hs Hb]. exists r. repeat split; [exact Hr| |exact Hb].
    intros Hrange. apply raise_for_status_raises in Hrange as [e He].
    congruence.
Qed.

(** The three versions of [get_departments] are one computation, up to the
    URL, the value for a failure and the way a failure is reported. *)
Lemma fetch_run (E : env) (url : string) (failure : json)
    (report : exn -> M world unit) (say_it : exn -> world -> world)
    (w : world) :
  (forall e w', report e w' = (Return tt, say_it e w')) ->
  fetched E (mk_call GET url None) failure say_it w
    (try_except
       (response <- requests_get E url ;;
        _ <- lift (raise_for_status response) ;;
        body <- lift (resp_json response) ;;
        lift (getitem body "departments"))%monad
       [ (Exception, fun e => (_ <- report e ;; ret failure)%monad) ] w).
Proof.
  intros Hreport. unfold fetched. unfold_client.
  destruct (service E (wire w) (mk_call GET url None)) as [r|e] eqn:Er;
    cbn [find fst snd Exception].
  2:{ right. split; [|exists e; now rewrite Hreport].
      intros o v (r & Hr & _) _. congruence. }
  destruct (raise_for_status r) as [[]|e] eqn:Es;
    cbn [find fst snd Exception].
  2:{ right. split; [|exists e; now rewrite Hreport].
      intros o v H _. apply (good_reply_status E _ w _ r Er) in H as [H _].
      congruence. }
  destruct (resp_json r) as [body|e] eqn:Eb; cbn [find fst snd Exception].
  2:{ right. split; [|exists e; now rewrite Hreport].
      intros o v H _. apply (good_reply_status E _ w _ r Er) in H as [_ H].
      congruence. }
  destruct (getitem body "departments") as [v|e] eqn:Eg;
    cbn [find fst snd Exception].
  2:{ right. split; [|exists e; now rewrite Hreport].
      intros o v H Hv. apply (good_reply_status E _ w _ r Er) in H as [_ H].
      assert (body = JObject o) as -> by congruence.
      cbn in Eg. congruence. }
  left. apply getitem_Return in Eg as (o & -> & Hv).
  exists o, v. repeat split; [|exact Hv].
  apply (good_reply_status E _ w _ r Er). now split.
Qed.


(** Lookup after assignment in a dictionary. *)
Lemma dict_get_set_same {V : Type} (k : string) (v : V) (d : dict V) :
  dict_get k (dict_set k v d) = Return v.
Proof.
  induction d as [|[k' v'] d IH]; cbn.
  - now rewrite String.eqb_refl.
  - destruct (String.eqb_spec k k') as [->|Hne]; cbn.
    + now rewrite String.eqb_refl.
    + destruct (String.eqb_spec k k'); [contradiction | exact IH].
Qed.

Lemma dict_get_set_other {V : Type} (k k' : string) (v : V) (d : dict V) :
  k <> k' -> dict_get k (dict_set k' v d) = dict_get k d.
Proof.
  intros Hne. induction d as [|[k0 v0] d IH]; cbn.
  - destruct (String.eqb_spec k k'); [contradiction | reflexivity].
  - destruct (String.eqb_spec k' k0) as [->|Hne']; cbn.
    + destruct (String.eqb_spec k k0); [contradiction | reflexivity].
    + destruct (String.eqb_spec k k0); [reflexivity | exact IH].
Qed.

(** A world that has had something written to it is another world. *)
Lemma say_changes (s : string) (w : world) : say s w <> w.
Proof.
  intros H. apply (f_equal stdout) in H. cbn in H.
  apply (f_equal (@length string)) in H. rewrite length_app in H.
  cbn in H. lia.
Qed.

Lemma reported_differs {A : Type} (a b : result A) (s : string) (w : world) :
  (a, say s w) <> (b, w).
Proof. intros [= _ H]. exact (say_changes s w H). Qed.

(** What each version of [process_appeal] makes of the reply. *)
Lemma process_appeal01_run (E : env) (self : Console01.t)
    (text contact_info : string) (w : world) :
  Console01.process_appeal E self text contact_info w
  = let c :=
      appeal_call (Console01.base_url self ++ "/process_appeal") text
        contact_info in
    let failed e :=
      (Return JNull,
       say ("❌ Ошибка при обработке обращения: " ++ str e) (called c w)) in
    match service E (wire w) c with
    | Raise e => failed e
    | Return r =>
        if (status_code r =? 400)%Z then
          match
            and_then (resp_json r) (fun body =>
              get_method body "detail"
                (JString "Не удалось определить департамент"))
          with
          | Return detail =>
              (Return JNull,
               say ("⚠️ " ++ format_value E detail) (called c w))
          | Raise e => failed e
          end
        else
          match and_then (raise_for_status r) (fun _ => resp_json r) with
          | Return body => (Return body, called c w)
          | Raise e => failed e
          end
    end.
Proof.
  unfold Console01.process_appeal, appeal_call. unfold_client.
  cbn zeta.
  destruct (service E (wire w) _) as [r|e]; cbn [find fst snd Exception];
    [|reflexivity].
  destruct (status_code r =? 400)%Z.
  - destruct (resp_json r) as [body|e]; cbn [find fst snd Exception and_then];
      [|reflexivity].
    destruct (get_method body "detail" _); reflexivity.
  - destruct (raise_for_status r) as [[]|e];
      cbn [find fst snd Exception and_then]; [|reflexivity].
    destruct (resp_json r); reflexivity.
Qed.

Lemma process_appeal03_run (E : env) (self : Console03.t)
    (text contact_info theme : string) (w : world) :
  Console03.process_appeal E self text contact_info theme w
  = let c :=
      appeal_call (Console03.base_url self ++ "/process_appeal") text
        contact_info in
    let failed e :=
      (Return JNull,
       say ("❌ Ошибка при обработке обращения: " ++ str e) (called c w)) in
    match service E (wire w) c with
    | Raise e => failed e
    | Return r =>
        if (status_code r =? 400)%Z then
          match
            and_then (resp_json r) (fun body =>
              get_method body "detail"
                (JString "Не удалось определить департамент"))
          with
          | Return detail =>
              (Return JNull,
               say ("⚠️ " ++ format_value E detail) (called c w))
          | Raise e => failed e
          end
        else
          match and_then (raise_for_status r) (fun _ => resp_json r) with
          | Return (JObject o) =>
              (Return
                 (JObject
                    (dict_update o
                       (console_fields (now E (clock_reads w) "%d.%m.%Y %H:%M")
                          theme text contact_info (department_of o)))),
               ticked (called c w))
          | Return body =>
              match update_method body with
              | Raise e => failed e
              | Return _ => failed (Exn AttributeError "")
              end
          | Raise e => failed e
          end
    end.
Proof.
  unfold Console03.process_appeal, appeal_call. unfold_client.
  cbn zeta.
  destruct (service E (wire w) _) as [r|e]; cbn [find fst snd Exception];
    [|reflexivity].
  destruct (status_code r =? 400)%Z.
  - destruct (resp_json r) as [body|e]; cbn [find fst snd Exception and_then];
      [|reflexivity].
    destruct (get_method body "detail" _); reflexivity.
  - destruct (raise_for_status r) as [[]|e];
      cbn [find fst snd Exception and_then]; [|reflexivity].
    destruct (resp_json r) as [[]|e]; reflexivity.
Qed.

Lemma process_appeal_page_run (E : env) (text contact_info theme : string)
    (w : world) :
  TestApp.process_appeal E text contact_info theme w
  = let c :=
      appeal_call "http://localhost:8000/process_appeal" text contact_info in
    let failed e :=
      (Return JNull,
       shown (st_error ("Ошибка при обработке обращения: " ++ str e))
         (called c w)) in
    match service E (wire w) c with
    | Raise e => failed e
    | Return r =>
        if (status_code r =? 400)%Z then
          match
            and_then (resp_json r) (fun body =>
              get_method body "detail"
                (JString "Не удалось определить департамент. Попробуйте переформулировать обращение."))
          with
          | Return detail =>
              (Return JNull,
               shown (st_warning (format_value E detail)) (called c w))
          | Raise e => failed e
          end
        else
          match and_then (raise_for_status r) (fun _ => resp_json r) with
          | Return (JObject o) =>
              (Return
                 (JObject
                    (dict_update o
                       (page_fields (now E (clock_reads w) "%d.%m.%Y %H:%M")
                          theme (department_of o)))),
               ticked (called c w))
          | Return body =>
              match update_method body with
              | Raise e => failed e
              | Return _ => failed (Exn AttributeError "")
              end
          | Raise e => failed e
          end
    end.
Proof.
  unfold TestApp.process_appeal, appeal_call. unfold_client.
  cbn zeta.
  destruct (service E (wire w) _) as [r|e]; cbn [find fst snd Exception];
    [|reflexivity].
  destruct (status_code r =? 400)%Z.
  - destruct (resp_json r) as [body|e]; cbn [find fst snd Exception and_then];
      [|reflexivity].
    destruct (get_method body "detail" _); reflexivity.
  - destruct (raise_for_status r) as [[]|e];
      cbn [find fst snd Exception and_then]; [|reflexivity].
    destruct (resp_json r) as [[]|e]; reflexivity.
Qed.

(** The fields a client adds can be read back, and the other keys of the
    answer are left as they were. *)
Lemma console_fields_lookup (o : dict json)
    (date theme text contact_info : string) (department : json) :
  let o' :=
    dict_update o (console_fields date theme text contact_info department) in
  dict_get "date" o' = Return (JString date)
  /\ dict_get "theme" o' = Return (JString theme)
  /\ dict_get "department" o' = Return department
  /\ dict_get "text" o' = Return (JString text)
  /\ dict_get "contact_info" o' = Return (JString contact_info)
  /\ forall k,
       ~ In k ["date"; "theme"; "department"; "text"; "contact_info"] ->
       dict_get k o' = dict_get k o.
Proof.
  unfold dict_update, console_fields. cbn [fold_left fst snd].
  repeat split;
    try (repeat (rewrite dict_get_set_other by discriminate);
         apply dict_get_set_same).
  intros k Hk.
  repeat (rewrite dict_get_set_other;
          [|intros ->; apply Hk; cbn; tauto]).
  reflexivity.
Qed.

Lemma page_fields_lookup (o : dict json) (date theme : string)
    (department : json) :
  let o' := dict_update o (page_fields date theme department) in
  dict_get "date" o' = Return (JString date)
  /\ dict_get "theme" o' = Return (JString theme)
  /\ dict_get "department" o' = Return department
  /\ forall k,
       ~ In k ["date"; "theme"; "department"] ->
       dict_get k o' = dict_get k o.
Proof.
  unfold dict_update, page_fields. cbn [fold_left fst snd].
  repeat split;
    try (repeat (rewrite dict_get_set_other by discriminate);
         apply dict_get_set_same).
  intros k Hk.
  repeat (rewrite dict_get_set_other;
          [|intros ->; apply Hk; cbn; tauto]).
  reflexivity.
Qed.

(** Close a goal that asks for the value and the state of a run that has
    been computed. *)
Ltac solve_post := do 2 eexists; split; reflexivity.

(** X13. [process_appeal], in each of the three clients, never raises
    and makes exactly one call: a POST to the address of the service with
    the text and the contact information as its JSON body. *)
Theorem process_appeal_one_post :
  forall (E : env) (base_url text contact_info theme : string)
         (w : world),
    (exists v w',
        Console01.process_appeal E (Console01.init base_url) text
          contact_info w = (Return v, w')
        /\ wire w'
           = wire w
             ++ [appeal_call (base_url ++ "/process_appeal") text
                   contact_info])
    /\ (exists v w',
           Console03.process_appeal E (Console03.init base_url) text
             contact_info theme w = (Return v, w')
           /\ wire w'
              = wire w
                ++ [appeal_call (base_url ++ "/process_appeal") text
                      contact_info])
    /\ (exists v w',
           TestApp.process_appeal E text contact_info theme w
           = (Return v, w')
           /\ wire w'
              = wire w
                ++ [appeal_call "http://localhost:8000/process_appeal" text
                      contact_info]).
Proof.
  intros E base_url text contact_info theme w. repeat split.
  - rewrite process_appeal01_run. cbn zeta.
    destruct (service E (wire w) _) as [r|e]; [|solve_post].
    destruct (status_code r =? 400)%Z.
    + destruct (and_then (resp_json r) _); solve_post.
    + destruct (and_then (raise_for_status r) _); solve_post.
  - rewrite process_appeal03_run. cbn zeta.
    destruct (service E (wire w) _) as [r|e]; [|solve_post].
    destruct (status_code r =? 400)%Z.
    + destruct (and_then (resp_json r) _); solve_post.
    + destruct (and_then (raise_for_status r) _) as [[]|e]; solve_post.
  - rewrite process_appeal_page_run. cbn zeta.
    destruct (service E (wire w) _) as [r|e]; [|solve_post].
    destruct (status_code r =? 400)%Z.
    + destruct (and_then (resp_json r) _); solve_post.
    + destruct (and_then (raise_for_status r) _) as [[]|e]; solve_post.
Qed.

(** X14. A reply with status 400 whose body is a JSON object is shown as
    a warning, not as an error: the clients show the [detail] of the
    reply, or their own text when the reply has none, and return
    [None]. *)
Theorem appeal_rejected_400 :
  forall (E : env) (base_url text contact_info theme : string)
         (w : world) (r : response) (o : dict json),
    (forall c, service E (wire w) c = Return r) ->
    status_code r = 400%Z ->
    resp_json r = Return (JObject o) ->
    Console01.process_appeal E (Console01.init base_url) text contact_info w
    = (Return JNull,
       say ("⚠️ "
            ++ format_value E
                 (detail_of o "Не удалось определить департамент"))
         (called (appeal_call (base_url ++ "/process_appeal") text
                    contact_info) w))
    /\ Console03.process_appeal E (Console03.init base_url) text
         contact_info theme w
       = (Return JNull,
          say ("⚠️ "
               ++ format_value E
                    (detail_of o "Не удалось определить департамент"))
            (called (appeal_call (base_url ++ "/process_appeal") text
                       contact_info) w))
    /\ TestApp.process_appeal E text contact_info theme w
       = (Return JNull,
          shown
            (st_warning
               (format_value E
                  (detail_of o
                     "Не удалось определить департамент. Попробуйте переформулировать обращение.")))
            (called (appeal_call "http://localhost:8000/process_appeal" text
                       contact_info) w)).
Proof.
  intros E base_url text contact_info theme w r o Hr Hs Hb.
  repeat split.
  - rewrite process_appeal01_run. cbn zeta. rewrite Hr, Hs, Hb. reflexivity.
  - rewrite process_appeal03_run. cbn zeta. rewrite Hr, Hs, Hb. reflexivity.
  - rewrite process_appeal_page_run. cbn zeta. rewrite Hr, Hs, Hb.
    reflexivity.
Qed.

Lemma good_reply_inv (E : env) (c : http_call) (w : world) (body : json) :
  good_reply E c w body ->
  exists r,
    service E (wire w) c = Return r
    /\ (status_code r =? 400)%Z = false
    /\ raise_for_status r = Return tt
    /\ resp_json r = Return body.
Proof.
  intros H. pose proof H as (r & Hr & Hs & Hb).
  exists r. repeat split; [exact Hr| | |exact Hb].
  - apply Z.eqb_neq. lia.
  - now apply (good_reply_status E c w body r Hr) in H.
Qed.

(** X15. On a reply with a good status and a JSON object as its body,
    the clients that keep a record of the appeal return that object with
    their own fields written over it: the date read from the clock, the
    theme, and (in the console client) the text and the contact
    information as they were typed. The department is the one of the
    answer, or a placeholder when the answer has none; every other key of
    the answer is kept. *)
Theorem processed_appeal_fields :
  forall (E : env) (base_url text contact_info theme : string)
         (w : world) (o : dict json),
    let date := now E (clock_reads w) "%d.%m.%Y %H:%M" in
    (good_reply E
       (appeal_call (base_url ++ "/process_appeal") text contact_info) w
       (JObject o) ->
     exists o',
       Console03.process_appeal E (Console03.init base_url) text
         contact_info theme w
       = (Return (JObject o'),
          ticked (called (appeal_call (base_url ++ "/process_appeal") text
                            contact_info) w))
       /\ dict_get "date" o' = Return (JString date)
       /\ dict_get "theme" o' = Return (JString theme)
       /\ dict_get "department" o' = Return (department_of o)
       /\ dict_get "text" o' = Return (JString text)
       /\ dict_get "contact_info" o' = Return (JString contact_info)
       /\ forall k,
            ~ In k ["date"; "theme"; "department"; "text"; "contact_info"] ->
            dict_get k o' = dict_get k o)
    /\ (good_reply E
          (appeal_call "http://localhost:8000/process_appeal" text
             contact_info) w (JObject o) ->
        exists o',
          TestApp.process_appeal E text contact_info theme w
          = (Return (JObject o'),
             ticked (called (appeal_call
                               "http://localhost:8000/process_appeal" text
                               contact_info) w))
          /\ dict_get "date" o' = Return (JString date)
          /\ dict_get "theme" o' = Return (JString theme)
          /\ dict_get "department" o' = Return (department_of o)
          /\ forall k,
               ~ In k ["date"; "theme"; "department"] ->
               dict_get k o' = dict_get k o).
Proof.
  intros E base_url text contact_info theme w o date. split; intros H.
  - apply good_reply_inv in H as (r & Hr & H400 & Hs & Hb).
    rewrite process_appeal03_run. cbn zeta. cbn [Console03.base_url
      Console03.init]. rewrite Hr, H400, Hs. cbn [and_then]. rewrite Hb.
    eexists. split; [reflexivity|]. apply console_fields_lookup.
  - apply good_reply_inv in H as (r & Hr & H400 & Hs & Hb).
    rewrite process_appeal_page_run. cbn zeta. rewrite Hr, H400, Hs.
    cbn [and_then]. rewrite Hb.
    eexists. split; [reflexivity|]. apply page_fields_lookup.
Qed.

(** X16. The client of task01 returns the parsed body of the reply, and
    reports nothing, exactly when the reply has a JSON body and a status
    that is not 4xx or 5xx. *)
Theorem appeal_answer_returned :
  forall (E : env) (base_url text contact_info : string) (w : world)
         (body : json),
    let c := appeal_call (base_url ++ "/process_appeal") text contact_info in
    Console01.process_appeal E (Console01.init base_url) text contact_info w
    = (Return body, called c w)
    <-> good_reply E c w body.
Proof.
  intros E base_url text contact_info w body c.
  rewrite process_appeal01_run. cbn zeta.
  cbn [Console01.base_url Console01.init]. fold c. split.
  - destruct (service E (wire w) c) as [r|e] eqn:Er.
    2:{ intros H. now apply reported_differs in H. }
    destruct (status_code r =? 400)%Z.
    { destruct (and_then (resp_json r) _); intros H;
        now apply reported_differs in H. }
    destruct (raise_for_status r) as [[]|e] eqn:Es; cbn [and_then].
    2:{ intros H. now apply reported_differs in H. }
    destruct (resp_json r) as [b|e] eqn:Eb.
    2:{ intros H. now apply reported_differs in H. }
    intros [= ->]. apply (good_reply_status E c w body r Er). now split.
  - intros H. apply good_reply_inv in H as (r & Hr & H400 & Hs & Hb).
    rewrite Hr, H400, Hs. cbn [and_then]. now rewrite Hb.
Qed.

(** ** The console clients: the loop *)

Lemma wire_say (s : string) (w : world) : wire (say s w) = wire w.
Proof. reflexivity. Qed.

Lemma wire_write (s : string) (w : world) : wire (write s w) = wire w.
Proof. reflexivity. Qed.

Lemma wire_say_numbered (E : env) (items : list json) :
  forall (n : Z) (w : world), wire (say_numbered E n items w) = wire w.
Proof.
  induction items as [|x items IH]; intros n w; cbn; [reflexivity|].
  now rewrite IH.
Qed.

Lemma wire_menu01 (w : world) : wire (Console01.print_menu w) = wire w.
Proof. reflexivity. Qed.

Lemma wire_menu03 (w : world) : wire (Console03.print_menu w) = wire w.
Proof. reflexivity. Qed.

Create Rewrite HintDb wire.
#[local] Hint Rewrite wire_say wire_write wire_say_numbered wire_menu01
  wire_menu03 : wire.

Lemma get_departments01_post (E : env) (self : Console01.t) (w : world) :
  exists v w',
    Console01.get_departments E self w = (Return v, w')
    /\ wire w'
       = wire w ++ [mk_call GET (Console01.base_url self ++ "/departments")
                      None].
Proof.
  destruct (fetch_run E (Console01.base_url self ++ "/departments") JNull
              (fun e =>
                 print ("❌ Ошибка при получении списка департаментов: "
                        ++ str e))
              (fun e =>
                 say ("❌ Ошибка при получении списка департаментов: "
                      ++ str e)) w) as [(o & v & _ & _ & H)|(_ & e & H)];
    [reflexivity| |]; unfold Console01.get_departments; rewrite H;
    solve_post.
Qed.

Lemma process_appeal01_post (E : env) (self : Console01.t)
    (text contact_info : string) (w : world) :
  exists v w',
    Console01.process_appeal E self text contact_info w = (Return v, w')
    /\ wire w'
       = wire w
         ++ [appeal_call (Console01.base_url self ++ "/process_appeal") text
               contact_info].
Proof.
  rewrite process_appeal01_run. cbn zeta.
  destruct (service E (wire w) _) as [r|e]; [|solve_post].
  destruct (status_code r =? 400)%Z.
  - destruct (and_then (resp_json r) _); solve_post.
  - destruct (and_then (raise_for_status r) _); solve_post.
Qed.






Lemma get_departments03_post (E : env) (self : Console03.t) (w : world) :
  exists v w',
    Console03.get_departments E self w = (Return v, w')
    /\ wire w'
       = wire w ++ [mk_call GET (Console03.base_url self ++ "/departments")
                      None].
Proof.
  destruct (fetch_run E (Console03.base_url self ++ "/departments") JNull
              (fun e =>
                 print ("❌ Ошибка при получении списка департаментов: "
                        ++ str e))
              (fun e =>
                 say ("❌ Ошибка при получении списка департаментов: "
                      ++ str e)) w) as [(o & v & _ & _ & H)|(_ & e & H)];
    [reflexivity| |]; unfold Console03.get_departments; rewrite H;
    solve_post.
Qed.

Lemma process_appeal03_post (E : env) (self : Console03.t)
    (text contact_info theme : string) (w : world) :
  exists v w',
    Console03.process_appeal E self text contact_info theme w
    = (Return v, w')
    /\ wire w'
       = wire w
         ++ [appeal_call (Console03.base_url self ++ "/process_appeal") text
               contact_info]
    /\ (truthy v = true -> reportable v).
Proof.
  rewrite process_appeal03_run. cbn zeta.
  destruct (service E (wire w) _) as [r|e];
    [|do 2 eexists; repeat split; discriminate].
  destruct (status_code r =? 400)%Z.
  - destruct (and_then (resp_json r) _);
      do 2 eexists; repeat split; discriminate.
  - destruct (and_then (raise_for_status r) _) as [[]|e];
      do 2 eexists; repeat split; try discriminate.
    intros _.
    destruct (console_fields_lookup o
                (now E (clock_reads w) "%d.%m.%Y %H:%M") theme text
                contact_info (department_of o))
      as (Hd & Ht & Hp & _).
    eexists _, _, _, _. repeat split; eassumption.
Qed.

Lemma save_appeal_to_file_post (E : env) (self : Console03.t) (data : json)
    (w : world) :
  exists name w',
    Console03.save_appeal_to_file E self data w = (Return name, w')
    /\ wire w' = wire w.
Proof.
  unfold Console03.save_appeal_to_file, dump_to_file. unfold_client.
  destruct (write_error E _); cbn [find fst snd Exception]; solve_post.
Qed.

(** The report of an appeal that has the fields it reads never fails and
    makes no call. *)
Lemma report_post (E : env) (self : Console03.t) (v : json) (w : world) :
  reportable v ->
  exists w', Console03.report E self v w = (Return tt, w') /\ wire w' = wire w.
Proof.
  intros (o & date & theme & department & -> & Hd & Ht & Hp).
  unfold Console03.report. unfold_client. cbn [getitem].
  rewrite Hd, Ht, Hp.
  match goal with
  | |- context [Console03.save_appeal_to_file E self ?d ?w0] =>
      destruct (save_appeal_to_file_post E self d w0)
        as (name & w1 & -> & Hw1)
  end.
  destruct name as [name|]; [destruct (String.eqb name "")|];
    eexists; (split; [reflexivity | exact Hw1]).
Qed.




Ltac run_step_ending :=
  match goal with
  | |- context [Console01.process_appeal ?E ?s ?t ?c ?w] =>
      destruct (process_appeal01_post E s t c w) as (? & ? & -> & ?)
  | |- context [Console01.get_departments ?E ?s ?w] =>
      destruct (get_departments01_post E s w) as (? & ? & -> & ?)
  | |- context [Console03.process_appeal ?E ?s ?t ?c ?h ?w] =>
      destruct (process_appeal03_post E s t c h w) as (? & ? & -> & ? & ?)
  | |- context [Console03.get_departments ?E ?s ?w] =>
      destruct (get_departments03_post E s w) as (? & ? & -> & ?)
  | H : truthy ?v = true -> reportable ?v
    |- context [if truthy ?v then _ else _] =>
      destruct (truthy v);
      [ specialize (H eq_refl);
        match goal with
        | |- context [Console03.report ?E ?s v ?w] =>
            destruct (report_post E s v w H) as (? & -> & ?)
        end
      | clear H; unfold ret ]
  | |- context [match iterate ?d with _ => _ end] =>
      destruct (iterate d) eqn:?
  | |- context [if ?b then _ else _] => destruct b eqn:?
  | |- context [match ?l with [] => _ | _ :: _ => _ end] =>
      is_var l; destruct l
  end.

Ltac ending_now :=
  cbn [fst expected_ending];
  first [exact I | reflexivity | eexists; split; eassumption].

Lemma run01_ending (E : env) (self : Console01.t) (n : nat) :
  forall (stdin : list string) (w : world),
    (length stdin <= n)%nat ->
    expected_ending (fst (Console01.run E self stdin w)).
Proof.
  induction n as [|n IH]; intros stdin w Hn.
  - destruct stdin; [|cbn in Hn; lia]. cbn. exact I.
  - destruct stdin as [|line stdin]; [cbn; exact I|].
    cbn [Console01.run]. repeat run_step_ending;
      first [ending_now | apply IH; cbn in Hn |- *; lia].
Qed.

Lemma run03_ending (E : env) (self : Console03.t) (n : nat) :
  forall (stdin : list string) (w : world),
    (length stdin <= n)%nat ->
    expected_ending (fst (Console03.run E self stdin w)).
Proof.
  induction n as [|n IH]; intros stdin w Hn.
  - destruct stdin; [|cbn in Hn; lia]. cbn. exact I.
  - destruct stdin as [|line stdin]; [cbn; exact I|].
    cbn [Console03.run]. repeat run_step_ending;
      first [ending_now | apply IH; cbn in Hn |- *; lia].
Qed.

(** X18. A run of a console client ends in one of three ways only: with
    exit code 0 when the user chooses to leave, with the end of the typed
    lines, or with the [TypeError] of looping over a departments value
    that is a number or [true]. No failure of the service and no shape of
    its replies makes the client stop in another way; in particular the
    fields that the client of task03 prints of a processed appeal are
    always there. *)
Theorem console_endings :
  forall (E : env) (base_url : string) (stdin : list string) (w : world),
    expected_ending (fst (Console01.run E (Console01.init base_url) stdin w))
    /\ expected_ending
         (fst (Console03.run E (Console03.init base_url) stdin w)).
Proof.
  intros E base_url stdin w. split.
  - now apply (run01_ending E _ (length stdin)).
  - now apply (run03_ending E _ (length stdin)).
Qed.

(** ** The Streamlit client: the two blocks *)

Lemma process_appeal_page_post (E : env) (text contact_info theme : string)
    (w : world) :
  exists v w',
    TestApp.process_appeal E text contact_info theme w = (Return v, w')
    /\ wire w'
       = wire w
         ++ [appeal_call "http://localhost:8000/process_appeal" text
               contact_info]
    /\ (truthy v = true -> reportable v).
Proof.
  rewrite process_appeal_page_run. cbn zeta.
  destruct (service E (wire w) _) as [r|e];
    [|do 2 eexists; repeat split; discriminate].
  destruct (status_code r =? 400)%Z.
  - destruct (and_then (resp_json r) _);
      do 2 eexists; repeat split; discriminate.
  - destruct (and_then (raise_for_status r) _) as [[]|e];
      do 2 eexists; repeat split; try discriminate.
    intros _.
    destruct (page_fields_lookup o (now E (clock_reads w) "%d.%m.%Y %H:%M")
                theme (department_of o)) as (Hd & Ht & Hp & _).
    eexists _, _, _, _. repeat split; eassumption.
Qed.

Lemma show_post (E : env) (v : json) (w : world) :
  reportable v ->
  exists w', TestApp.show E v w = (Return tt, w') /\ wire w' = wire w.
Proof.
  intros (o & date & theme & department & -> & Hd & Ht & Hp).
  unfold TestApp.show. unfold_client. cbn [getitem].
  rewrite Hd, Ht, Hp. eexists. split; reflexivity.
Qed.

(** X19. The block under the button never raises. It sends the appeal,
    in one call, exactly when the theme is not empty, the text has at
    least 10 characters and the contact information is not empty; white
    space is not removed before these tests. Otherwise it makes no call
    and shows one warning. *)
Theorem page_submit :
  forall (E : env) (theme appeal_text contact_info : string) (w : world),
    exists w',
      TestApp.submit E theme appeal_text contact_info w = (Return tt, w')
      /\ (if page_valid theme appeal_text contact_info then
            wire w'
            = wire w
              ++ [appeal_call "http://localhost:8000/process_appeal"
                    appeal_text contact_info]
          else exists body, w' = shown (st_warning body) w).
Proof.
  intros E theme appeal_text contact_info w.
  unfold TestApp.submit, page_valid.
  destruct (String.eqb theme ""); cbn [negb andb orb].
  { eexists. split; [reflexivity | eexists; reflexivity]. }
  destruct (length (characters appeal_text) <? 10)%nat eqn:Elen;
    rewrite ?orb_true_r, ?orb_false_r; cbn [negb andb].
  { eexists. split; [reflexivity | eexists; reflexivity]. }
  destruct (String.eqb appeal_text "") eqn:Etext.
  { apply String.eqb_eq in Etext. subst appeal_text. discriminate Elen. }
  destruct (String.eqb contact_info ""); cbn [negb].
  { eexists. split; [reflexivity | eexists; reflexivity]. }
  unfold bind at 1. unfold st at 1. unfold bind.
  match goal with
  | |- context [TestApp.process_appeal E ?t ?c ?h ?w0] =>
      destruct (process_appeal_page_post E t c h w0)
        as (v & w1 & -> & Hw1 & Hv)
  end.
  destruct (truthy v).
  - destruct (show_post E v w1 (Hv eq_refl)) as (w2 & -> & Hw2).
    exists w2. split; [reflexivity|]. now rewrite Hw2.
  - eexists. split; [reflexivity|]. exact Hw1.
Qed.




(** ** The further properties at concrete inputs *)

(** X1 at the broken encoder. *)
Lemma classify_raises_only_http_500_witness :
  exists e0,
    HTTPException 500
      "Ошибка при классификации обращения: CUDA out of memory"
    = HTTPException 500 ("Ошибка при классификации обращения: " ++ str e0)
    /\ ((exists t, In t (Fake.appeal :: values department_descriptions)
                   /\ Fake.broken_encode t = Raise e0)
        \/ (exists a b, Fake.basis_cosine a b = Raise e0)).
Proof.
  apply (classify_raises_only_http_500 nat Fake.broken_encode
           Fake.basis_cosine Fake.appeal [] []).
  vm_compute. reflexivity.
Defined.

(** X2 at an encoder that fails on the second description: the text and
    two descriptions are handed to the encoder, the other four are not. *)
Lemma classify_stops_at_first_failure_witness :
  HuggingFaceClassifier.classify Sample.culture_fails Fake.basis_cosine
    Fake.appeal [] []
  = (Raise (HTTPException 500
              ("Ошибка при классификации обращения: "
               ++ str (Exn RuntimeError "CUDA out of memory"))),
     [] ++ [Fake.appeal; snd (nth 0 department_descriptions ("", ""))]
     ++ [snd (nth 1 department_descriptions ("", ""))]).
Proof.
  apply (classify_stops_at_first_failure nat Sample.culture_fails
           Fake.basis_cosine Fake.appeal [] []
           [Fake.appeal; snd (nth 0 department_descriptions ("", ""))]
           (skipn 2 (values department_descriptions))).
  - vm_compute. reflexivity.
  - intros x [<-|[<-|[]]]; exists 0%nat; vm_compute; reflexivity.
  - vm_compute. reflexivity.
Defined.


(** X4 at the constant encoder. *)
Lemma process_appeal_success_witness :
  exists d,
    In d Main.DEPARTMENTS
    /\ [ ("status", "success"); ("department", "Департамент транспорта");
         ("message", "Обращение направлено в Департамент транспорта") ]
       = [ ("status", "success"); ("department", d);
           ("message", ("Обращение направлено в " ++ d)%string) ].
Proof.
  apply (process_appeal_success nat Fake.constant_encode Fake.basis_cosine
           (Main.mk_Appeal Fake.appeal "citizen@example.org") []).
  vm_compute. reflexivity.
Defined.

(** X5 at the catalog encoder and the gibberish appeal. *)
Lemma process_appeal_errors_witness :
  (HTTPException 400 undecided_detail
   = HTTPException 400
       "Не удалось определить подходящий департамент. Попробуйте переформулировать обращение."
   \/ exists e0,
        HTTPException 400 undecided_detail
        = HTTPException 500
            ("Ошибка при классификации обращения: " ++ str e0))
  /\ forall x,
       HTTPException 400 undecided_detail
       <> HTTPException 500 ("Внутренняя ошибка сервера: " ++ x).
Proof.
  apply (process_appeal_errors nat Fake.catalog_encode Fake.basis_cosine
           (Main.mk_Appeal Fake.gibberish "citizen@example.org") []).
  vm_compute. reflexivity.
Defined.

(** X6 at the constant encoder: six departments score 1 and the appeal
    goes to the first. *)
Lemma process_appeal_by_score_witness :
  fst (Main.process_appeal Fake.constant_encode Fake.basis_cosine
         (Main.mk_Appeal Fake.appeal "citizen@example.org") [])
  = Return [ ("status", "success"); ("department", "Департамент транспорта");
             ("message",
              ("Обращение направлено в " ++ "Департамент транспорта")%string) ].
Proof.
  apply (process_appeal_by_score nat Fake.constant_encode Fake.basis_cosine
           (Main.mk_Appeal Fake.appeal "citizen@example.org") []
           (map (fun k => (k, 1)) (keys department_descriptions))
           []
           (map (fun k => (k, 1)) (tl (keys department_descriptions)))
           "Департамент транспорта" 1).
  - vm_compute. reflexivity.
  - reflexivity.
  - intros d' q' [].
  - apply scores_le. vm_compute. reflexivity.
  - discriminate.
Defined.

(** X7 at a remote side that answers in the shape of DeepSeek. *)
Lemma remote_returns_iff_witness :
  fst (classify Sample.deepseek_answers
         (DeepSeek (DeepSeekClassifier.init "key")) Fake.appeal
         ["Департамент культуры"] [])
  = Return "Департамент культуры".
Proof.
  apply (proj2 (remote_returns_iff Sample.deepseek_answers
                  (DeepSeek (DeepSeekClassifier.init "key")) Fake.appeal
                  ["Департамент культуры"] [] "Департамент культуры")).
  eexists _, _. split; [reflexivity|].
  split; [cbn; lia|]. split; [reflexivity|]. vm_compute. reflexivity.
Defined.

(** X8 on a body of the shape of Qwen. *)
Lemma answer_shapes_witness :
  QwenModel.answer
    (JObject [ ("output", JObject [ ("text", JString " транспорт ") ]);
               ("request_id", JString "1") ])
  = Return "транспорт".
Proof.
  apply (proj2 (proj1 (proj2 (answer_shapes _ "транспорт")))).
  eexists _, _, _. split; [reflexivity|].
  split; [reflexivity|]. split; [reflexivity|]. vm_compute. reflexivity.
Defined.


(** X10 at a remote side whose message has no content: the
    [AttributeError] leaves [classify] as it is. *)
Lemma deepseek_malformed_reply_witness :
  is_lookup_error
    (Exn AttributeError "'NoneType' object has no attribute 'strip'") = true
  /\ DeepSeekClassifier.classify Sample.deepseek_null_content
       (DeepSeekClassifier.init "key") Fake.appeal [] []
     = (Raise
          (if is_KeyError_or_IndexError
                (Exn AttributeError
                   "'NoneType' object has no attribute 'strip'")
           then HTTPException 500
                  ("Ошибка при обработке ответа от DeepSeek: "
                   ++ str (Exn AttributeError
                             "'NoneType' object has no attribute 'strip'"))
           else Exn AttributeError
                  "'NoneType' object has no attribute 'strip'"),
        [] ++ [request_of (DeepSeek (DeepSeekClassifier.init "key"))
                 Fake.appeal []]).
Proof.
  eapply (deepseek_malformed_reply Sample.deepseek_null_content
            (DeepSeekClassifier.init "key") Fake.appeal [] []).
  - reflexivity.
  - cbn. lia.
  - reflexivity.
  - vm_compute. reflexivity.
Defined.

(** X11 for the Yandex backend. *)
Lemma factory_instance_request_witness :
  exists req,
    snd (classify Fake.unavailable
           (YandexGPT (YandexGPTModel.init "secret")) Fake.appeal [] [])
    = [] ++ [req]
    /\ dict_get "Content-Type" (req_headers req) = Return "application/json"
    /\ dict_get "Authorization" (req_headers req)
       = Return ((if String.eqb "yandexgpt" "yandexgpt"
                  then "Api-Key " else "Bearer ") ++ "secret")%string
    /\ req_url req
       = (if String.eqb "yandexgpt" "deepseek"
          then "https://api.deepseek.com/v1/chat/completions"
          else if String.eqb "yandexgpt" "qwen"
          then "https://dashscope.aliyuncs.com/api/v1/services/aigc/text-generation/generation"
          else "https://llm.api.cloud.yandex.net/foundationModels/v1/completion").
Proof.
  apply (factory_instance_request Fake.unavailable "yandexgpt" "secret").
  reflexivity.
Defined.

(** X14 at a service that finds no department. *)
Lemma appeal_rejected_400_witness :
  Console01.process_appeal Sample.rejecting
    (Console01.init "http://localhost:8000") Fake.gibberish
    "citizen@example.org" Sample.start
  = (Return JNull,
     say ("⚠️ "
          ++ format_value Sample.rejecting
               (detail_of [ ("detail", JString undecided_detail) ]
                  "Не удалось определить департамент"))
       (called (appeal_call ("http://localhost:8000" ++ "/process_appeal")
                  Fake.gibberish "citizen@example.org") Sample.start)).
Proof.
  apply (appeal_rejected_400 Sample.rejecting "http://localhost:8000"
           Fake.gibberish "citizen@example.org" "" Sample.start
           Sample.undecided_reply);
    reflexivity.
Defined.

(** X15 at a service that routes the appeal: the theme typed by the user
    is in the record. *)
Lemma processed_appeal_fields_witness :
  exists o',
    Console03.process_appeal Sample.accepting
      (Console03.init "http://localhost:8000") Fake.appeal
      "citizen@example.org" "Автобусы" Sample.start
    = (Return (JObject o'),
       ticked (called (appeal_call
                         ("http://localhost:8000" ++ "/process_appeal")
                         Fake.appeal "citizen@example.org") Sample.start))
    /\ dict_get "date" o' = Return (JString "01.06.2025 12:00")
    /\ dict_get "theme" o' = Return (JString "Автобусы")
    /\ dict_get "department" o' = Return (department_of Sample.routed)
    /\ dict_get "text" o' = Return (JString Fake.appeal)
    /\ dict_get "contact_info" o' = Return (JString "citizen@example.org")
    /\ forall k,
         ~ In k ["date"; "theme"; "department"; "text"; "contact_info"] ->
         dict_get k o' = dict_get k Sample.routed.
Proof.
  apply (proj1 (processed_appeal_fields Sample.accepting
                  "http://localhost:8000" Fake.appeal "citizen@example.org"
                  "Автобусы" Sample.start Sample.routed)).
  eexists. split; [reflexivity|]. split; [cbn; lia | reflexivity].
Defined.

(** X16 at a service that routes the appeal. *)
Lemma appeal_answer_returned_witness :
  Console01.process_appeal Sample.accepting
    (Console01.init "http://localhost:8000") Fake.appeal
    "citizen@example.org" Sample.start
  = (Return (JObject Sample.routed),
     called (appeal_call ("http://localhost:8000" ++ "/process_appeal")
               Fake.appeal "citizen@example.org") Sample.start).
Proof.
  apply (proj2 (appeal_answer_returned Sample.accepting
                  "http://localhost:8000" Fake.appeal "citizen@example.org"
                  Sample.start (JObject Sample.routed))).
  eexists. split; [reflexivity|]. split; [cbn; lia | reflexivity].
Defined.

